(** * AD525x: a driver for the AD5253/AD5254 digital potentiometers

    A shallow embedding of [AD525x/AD525x.cpp] and of the header constants it
    uses, followed by the properties of the register protocol, of the
    validation layer and of the tolerance decoder.

    Bytes ([uint8_t]) are integers of [Z] in the range [0, 255]; the places
    where the source narrows a wider value to a byte carry an explicit [u8].
    The [Wire] peripheral is external to the driver: it is modelled by the
    log of the calls made to it and by a [Board] that answers them. *)

From Stdlib Require Import ZArith QArith List Bool Lia.
Import ListNotations.

Local Open Scope Z_scope.

(** ** Error codes ([AD525x_Errors.h]) *)

Definition EC_NO_ERR : Z := 0.
Definition EC_DATA_LONG : Z := 1.
Definition EC_NACK_ADDR : Z := 2.
Definition EC_NACK_DATA : Z := 3.
Definition EC_I2C_OTHER : Z := 4.
Definition EC_BAD_REGISTER : Z := 5.
Definition EC_BAD_WIPER_SETTING : Z := 6.
Definition EC_BAD_READ_SIZE : Z := 7.
Definition EC_BAD_DEVICE_ADDR : Z := 8.
Definition EC_NOT_IMPLEMENTED : Z := 9.
Definition EC_NOT_INITIALIZED : Z := 10.

(** ** Constants of [class AD525x] ([AD525x.h]) *)

Definition base_I2C_addr : Z := 0x2C.

Definition RDAC_register : Z := 0x00.
Definition EEMEM_register : Z := 0x20.
Definition Tolerance_register : Z := 0x38.
Definition Tol_int : Z := 0x00.
Definition Tol_dec : Z := 0x01.

Definition CMD_NOP : Z := 0x80.
Definition CMD_Restore_RDAC : Z := 0x88.
Definition CMD_Store_RDAC : Z := 0x90.
Definition CMD_Dec_RDAC_6dB : Z := 0x98.
Definition CMD_Dec_All_RDAC_6dB : Z := 0xa0.
Definition CMD_Dec_RDAC_step : Z := 0xa8.
Definition CMD_Dec_All_RDAC_step : Z := 0xb0.
Definition CMD_Restore_All_RDAC : Z := 0xb8.
Definition CMD_Inc_RDAC_6dB : Z := 0xc0.
Definition CMD_Inc_All_RDAC_6dB : Z := 0xc8.
Definition CMD_Inc_RDAC_step : Z := 0xd0.
Definition CMD_Inc_All_RDAC_step : Z := 0xd8.

(** [AD5253::max_val] and [AD5254::max_val]. *)
Definition AD5253_max_val : Z := 63.
Definition AD5254_max_val : Z := 255.

(** Modelled from the spec: the constant [AD525x::max_AD_addr] is declared in
    a header that is not among the sources; the selector is a 2-bit value,
    "device address must be in [0, 3]". *)
Definition max_AD_addr : Z := 3.

(** Modelled from the spec: the constant [AD525x::max_RDAC_register] is
    declared in a header that is not among the sources; the wiper index
    ranges over [0, 3]. *)
Definition max_RDAC_register : Z := 3.

(** Modelled from the spec: the constant [AD525x::max_EEMEM_register] is
    declared in a header that is not among the sources; the non-volatile
    index ranges over [0, 15]. *)
Definition max_EEMEM_register : Z := 15.

(** Narrowing to [uint8_t]. *)
Definition u8 (x : Z) : Z := x mod 256.

(** ** The [Wire] peripheral *)

Module Wire.

(** The calls the driver makes, in the order it makes them. *)
Inductive call : Type :=
| begin
| beginTransmission (address : Z)
| write (data : Z)
| endTransmission
| requestFrom (address quantity : Z)
| available
| read.

Definition log : Type := list call.

End Wire.

(** What lies outside the driver. First the answers of the peripheral, each
    a function of the calls made so far. Then what a caller finds through the
    address of a local array of a function that has returned: C++ leaves it
    undefined, and platforms differ. [None] is a null pointer, which is what
    a compiler that replaces the address of a local by null hands back (GCC
    does); [Some bytes] is what the dead storage yields otherwise. It is
    given the calls made so far and what the array held when the function
    returned, [None] for an array that was never written. *)
Record Board : Type := mkBoard {
  endTransmission_answer : Wire.log -> Z;
  requestFrom_answer : Wire.log -> Z;
  available_answer : Wire.log -> Z;
  read_answer : Wire.log -> Z;
  returned_local : Wire.log -> option (list Z) -> option (list Z)
}.

(** ** The device handle *)

(** The class of the object, which selects [get_max_val]. *)
Inductive Class : Type :=
| AD525x
| AD5253
| AD5254.

(** The fields of the object, together with the log of the peripheral. *)
Record State : Type := mkState {
  class : Class;
  initialized : bool;
  dev_addr : Z;
  err_code : Z;
  wire : Wire.log
}.

Definition set_initialized (b : bool) (s : State) : State :=
  mkState (class s) b (dev_addr s) (err_code s) (wire s).

Definition set_dev_addr (a : Z) (s : State) : State :=
  mkState (class s) (initialized s) a (err_code s) (wire s).

Definition set_err_code (e : Z) (s : State) : State :=
  mkState (class s) (initialized s) (dev_addr s) e (wire s).

Definition set_wire (l : Wire.log) (s : State) : State :=
  mkState (class s) (initialized s) (dev_addr s) (err_code s) l.

(** ** A state monad for the member functions *)

Definition M (A : Type) : Type := State -> A * State.

Definition ret {A : Type} (a : A) : M A := fun s => (a, s).

Definition bind {A B : Type} (m : M A) (k : A -> M B) : M B :=
  fun s => let (a, s') := m s in k a s'.

Declare Scope member_scope.
Delimit Scope member_scope with member.
Notation "x <- m ;; k" := (bind m (fun x => k))
  (at level 61, m at next level, right associativity) : member_scope.
Notation "m ;; k" := (bind m (fun _ => k))
  (at level 61, right associativity) : member_scope.
Local Open Scope member_scope.

Definition field {A : Type} (f : State -> A) : M A := fun s => (f s, s).

Definition assign (upd : State -> State) : M unit := fun s => (tt, upd s).

(** [return (err_code = e);] *)
Definition fail_with (e : Z) : M Z := assign (set_err_code e) ;; ret e.

(** ** The arithmetic of [read_tolerance]

    The source computes in [float] and [double]. Every value it forms is a
    multiple of 2^-8 below 128 in magnitude, hence a binary32 number, and no
    operation rounds ([tolerance_output_binary32] below); the model computes
    over [Q]. *)

Definition sign_mask : Z := 0x80.

(** One turn of the loop over the fraction byte:
    [if ((sign_mask >> i) & tol_dec_data) output += 1.0/((float)(2<<i));] *)
Definition add_fraction_bit (tol_dec_data : Z) (output : Q) (i : Z) : Q :=
  if Z.land (Z.shiftr sign_mask i) tol_dec_data =? 0 then output
  else (output + 1 / inject_Z (Z.shiftl 2 i))%Q.

(** The values of [i] in [for (int i = 0; i < 8; i++)]. *)
Definition fraction_bits : list Z := [0; 1; 2; 3; 4; 5; 6; 7].

(** Lines 249 to 262 of [read_tolerance], from the two bytes read. *)
Definition tolerance_value (tol_int_data tol_dec_data : Z) : Q :=
  let output := inject_Z (Z.land (Z.lnot sign_mask) tol_int_data) in
  let output :=
    if Z.land sign_mask tol_int_data =? 0 then output
    else (output * (-1))%Q in
  fold_left (add_fraction_bit tol_dec_data) fraction_bits output.

Section Driver.

Variable board : Board.

(** *** Calls to the peripheral *)

Definition emit (c : Wire.call) : M unit :=
  assign (fun s => set_wire (wire s ++ [c]) s).

Definition Wire_begin : M unit := emit Wire.begin.

Definition Wire_beginTransmission (address : Z) : M unit :=
  emit (Wire.beginTransmission address).

Definition Wire_write (data : Z) : M unit := emit (Wire.write data).

(** [uint8_t TwoWire::endTransmission()]: the answer, as a byte. *)
Definition Wire_endTransmission : M Z :=
  l <- field wire ;;
  emit Wire.endTransmission ;;
  ret (u8 (endTransmission_answer board l)).

Definition Wire_requestFrom (address quantity : Z) : M Z :=
  l <- field wire ;;
  emit (Wire.requestFrom address quantity) ;;
  ret (requestFrom_answer board l).

Definition Wire_available : M Z :=
  l <- field wire ;;
  emit Wire.available ;;
  ret (available_answer board l).

Definition Wire_read : M Z :=
  l <- field wire ;;
  emit Wire.read ;;
  ret (read_answer board l).

(** *** Private functions: general I2C communications *)

Definition write_cmd (cmd_register : Z) : M Z :=
  a <- field dev_addr ;;
  Wire_beginTransmission a ;;
  Wire_write cmd_register ;;
  e <- Wire_endTransmission ;;
  assign (set_err_code e) ;;
  field err_code.

Definition write_data (register_addr data : Z) : M Z :=
  a <- field dev_addr ;;
  Wire_beginTransmission a ;;
  Wire_write register_addr ;;
  Wire_write data ;;
  e <- Wire_endTransmission ;;
  assign (set_err_code e) ;;
  field err_code.

(** [for(int i = 0; i < length; i++) { buff[i] = Wire.read(); }] *)
Fixpoint read_into_buff (length : nat) : M (list Z) :=
  match length with
  | O => ret []
  | S length' =>
      b <- Wire_read ;;
      rest <- read_into_buff length' ;;
      ret (u8 b :: rest)
  end.

(** [NULL] is [None]. On success the source does [return buff;], the address
    of its local array, which is dead when the caller looks at it: the bytes
    read do not reach the caller by any rule of the language, and the model
    hands the caller what the platform yields ([returned_local]). The array
    holds the bytes read, or was never written when [Wire.available] does
    not report [length]. *)
Definition read_data (register_addr length : Z) : M (option (list Z)) :=
  a <- field dev_addr ;;
  Wire_beginTransmission a ;;
  Wire_write register_addr ;;
  e <- Wire_endTransmission ;;
  assign (set_err_code e) ;;
  if e >? 0 then ret None
  else
    (a <- field dev_addr ;;
     Wire_beginTransmission a ;;
     n <- Wire_requestFrom a length ;;
     let n_bytes := u8 n in
     if negb (n_bytes =? length) then
       (assign (set_err_code EC_BAD_READ_SIZE) ;; ret None)
     else
       (avail <- Wire_available ;;
        buff <- (if avail =? length then
                   (written <- read_into_buff (Z.to_nat length) ;;
                    ret (Some written))
                 else ret None) ;;
        e <- Wire_endTransmission ;;
        assign (set_err_code e) ;;
        if e >? 0 then ret None
        else (l <- field wire ;; ret (returned_local board l buff)))).

Definition read_data_byte (register_addr : Z) : M Z :=
  rv <- read_data register_addr 1 ;;
  match rv with
  | None => ret 0
  | Some found => ret (nth 0 found 0)
  end.

(** *** Getter for the maximum value *)

Definition AD525x_get_max_val : M Z :=
  assign (set_err_code EC_NOT_IMPLEMENTED) ;; ret 0.

Definition AD5253_get_max_val : M Z := ret AD5253_max_val.

Definition AD5254_get_max_val : M Z := ret AD5254_max_val.

(** [this->get_max_val()]: the call is virtual. *)
Definition get_max_val : M Z :=
  c <- field class ;;
  match c with
  | AD525x => AD525x_get_max_val
  | AD5253 => AD5253_get_max_val
  | AD5254 => AD5254_get_max_val
  end.

Definition get_err_code : M Z := field err_code.

(** *** Public functions *)

Definition initialize (AD_addr : Z) : M Z :=
  if AD_addr >? max_AD_addr then
    (assign (set_initialized false) ;;
     assign (set_err_code EC_BAD_DEVICE_ADDR) ;;
     field err_code)
  else
    (assign (set_dev_addr (Z.lor base_I2C_addr AD_addr)) ;;
     Wire_begin ;;
     assign (set_initialized true) ;;
     ret 0).

Definition write_RDAC (RDAC value : Z) : M Z :=
  init <- field initialized ;;
  if negb init then fail_with EC_NOT_INITIALIZED
  else if RDAC >? max_RDAC_register then fail_with EC_BAD_REGISTER
  else
    (max_value <- get_max_val ;;
     if max_value =? 0 then field err_code
     else if value >? max_value then
       (assign (set_err_code EC_BAD_WIPER_SETTING) ;; field err_code)
     else
       (let instr_addr := Z.lor RDAC_register RDAC in
        e <- write_data instr_addr value ;;
        assign (set_err_code e) ;;
        field err_code)).

Definition read_RDAC (RDAC : Z) : M Z :=
  init <- field initialized ;;
  if negb init then (assign (set_err_code EC_NOT_INITIALIZED) ;; ret 0)
  else if RDAC >? max_RDAC_register then
    (assign (set_err_code EC_BAD_REGISTER) ;; ret 0)
  else
    (let instr_addr := Z.lor RDAC_register RDAC in
     rv <- read_data_byte instr_addr ;;
     e <- get_err_code ;;
     if negb (e =? 0) then ret 0 else ret rv).

Definition write_EEMEM (reg value : Z) : M Z :=
  init <- field initialized ;;
  if negb init then fail_with EC_NOT_INITIALIZED
  else
    (max_value <- get_max_val ;;
     if max_value =? 0 then field err_code
     else if (reg <=? max_RDAC_register) && (value <? max_value) then
       fail_with EC_BAD_WIPER_SETTING
     else if reg >? max_EEMEM_register then fail_with EC_BAD_REGISTER
     else
       (let instr_addr := Z.lor EEMEM_register reg in
        e <- write_data instr_addr value ;;
        assign (set_err_code e) ;;
        field err_code)).

Definition read_EEMEM (reg : Z) : M Z :=
  init <- field initialized ;;
  if negb init then (assign (set_err_code EC_NOT_INITIALIZED) ;; ret 0)
  else if reg >? max_EEMEM_register then
    (assign (set_err_code EC_BAD_REGISTER) ;; ret 0)
  else
    (let instr_addr := Z.lor EEMEM_register reg in
     rv <- read_data_byte instr_addr ;;
     e <- get_err_code ;;
     if negb (e =? 0) then ret 0 else ret rv).

Definition read_tolerance (RDAC : Z) : M Q :=
  init <- field initialized ;;
  if negb init then (assign (set_err_code EC_NOT_INITIALIZED) ;; ret 0%Q)
  else if RDAC >? max_RDAC_register then
    (assign (set_err_code EC_BAD_REGISTER) ;; ret 0%Q)
  else
    (let instr_addr := u8 (Z.lor Tolerance_register (Z.shiftl RDAC 1)) in
     let instr_addr_int := Z.lor instr_addr Tol_int in
     let instr_addr_dec := Z.lor instr_addr Tol_dec in
     tol_int_data <- read_data_byte instr_addr_int ;;
     e <- field err_code ;;
     if negb (e =? 0) then ret 0%Q
     else
       (tol_dec_data <- read_data_byte instr_addr_dec ;;
        e <- field err_code ;;
        if negb (e =? 0) then ret 0%Q
        else ret (tolerance_value tol_int_data tol_dec_data))).

(** *** Device commands *)

Definition reset_device : M Z :=
  init <- field initialized ;;
  if negb init then fail_with EC_NOT_INITIALIZED
  else write_cmd CMD_NOP.

Definition restore_RDAC (RDAC : Z) : M Z :=
  init <- field initialized ;;
  if negb init then fail_with EC_NOT_INITIALIZED
  else if RDAC >? max_RDAC_register then fail_with EC_BAD_REGISTER
  else write_cmd (Z.lor CMD_Restore_RDAC RDAC).

Definition restore_all_RDAC : M Z :=
  init <- field initialized ;;
  if negb init then fail_with EC_NOT_INITIALIZED
  else write_cmd CMD_Restore_All_RDAC.

Definition store_RDAC (RDAC : Z) : M Z :=
  init <- field initialized ;;
  if negb init then fail_with EC_NOT_INITIALIZED
  else if RDAC >? max_RDAC_register then fail_with EC_BAD_REGISTER
  else write_cmd (Z.lor CMD_Store_RDAC RDAC).

Definition decrement_RDAC (RDAC : Z) : M Z :=
  init <- field initialized ;;
  if negb init then fail_with EC_NOT_INITIALIZED
  else if RDAC >? max_RDAC_register then fail_with EC_BAD_REGISTER
  else write_cmd (Z.lor CMD_Dec_RDAC_step RDAC).

Definition increment_RDAC (RDAC : Z) : M Z :=
  init <- field initialized ;;
  if negb init then fail_with EC_NOT_INITIALIZED
  else if RDAC >? max_RDAC_register then fail_with EC_BAD_REGISTER
  else write_cmd (Z.lor CMD_Inc_RDAC_step RDAC).

Definition decrement_RDAC_6dB (RDAC : Z) : M Z :=
  init <- field initialized ;;
  if negb init then fail_with EC_NOT_INITIALIZED
  else if RDAC >? max_RDAC_register then fail_with EC_BAD_REGISTER
  else write_cmd (Z.lor CMD_Dec_RDAC_6dB RDAC).

Definition increment_RDAC_6dB (RDAC : Z) : M Z :=
  init <- field initialized ;;
  if negb init then fail_with EC_NOT_INITIALIZED
  else if RDAC >? max_RDAC_register then fail_with EC_BAD_REGISTER
  else write_cmd (Z.lor CMD_Inc_RDAC_6dB RDAC).

Definition decrement_all_RDAC : M Z :=
  init <- field initialized ;;
  if negb init then fail_with EC_NOT_INITIALIZED
  else write_cmd CMD_Dec_All_RDAC_step.

Definition increment_all_RDAC : M Z :=
  init <- field initialized ;;
  if negb init then fail_with EC_NOT_INITIALIZED
  else write_cmd CMD_Inc_All_RDAC_step.

Definition decrement_all_RDAC_6dB : M Z :=
  init <- field initialized ;;
  if negb init then fail_with EC_NOT_INITIALIZED
  else write_cmd CMD_Dec_All_RDAC_6dB.

Definition increment_all_RDAC_6dB : M Z :=
  init <- field initialized ;;
  if negb init then fail_with EC_NOT_INITIALIZED
  else write_cmd CMD_Inc_All_RDAC_6dB.

End Driver.

(** ** The public interface as a labelled transition system

    One constructor per public member function that talks to the device
    (all but [initialize] and the getters), so that a property of "every
    public operation" is a property of [perform]. *)

Inductive Request : Type :=
| Write_RDAC (RDAC value : Z)
| Read_RDAC (RDAC : Z)
| Write_EEMEM (reg value : Z)
| Read_EEMEM (reg : Z)
| Read_tolerance (RDAC : Z)
| Reset_device
| Restore_RDAC (RDAC : Z)
| Restore_all_RDAC
| Store_RDAC (RDAC : Z)
| Decrement_RDAC (RDAC : Z)
| Increment_RDAC (RDAC : Z)
| Decrement_RDAC_6dB (RDAC : Z)
| Increment_RDAC_6dB (RDAC : Z)
| Decrement_all_RDAC
| Increment_all_RDAC
| Decrement_all_RDAC_6dB
| Increment_all_RDAC_6dB.

(** What a member function returns: a [uint8_t] or a [float]. *)
Inductive Reply : Type :=
| Byte (b : Z)
| Float (f : Q).

Definition reply_byte (m : M Z) : M Reply := b <- m ;; ret (Byte b).

Definition reply_float (m : M Q) : M Reply := f <- m ;; ret (Float f).

Definition perform (board : Board) (r : Request) : M Reply :=
  match r with
  | Write_RDAC RDAC value => reply_byte (write_RDAC board RDAC value)
  | Read_RDAC RDAC => reply_byte (read_RDAC board RDAC)
  | Write_EEMEM reg value => reply_byte (write_EEMEM board reg value)
  | Read_EEMEM reg => reply_byte (read_EEMEM board reg)
  | Read_tolerance RDAC => reply_float (read_tolerance board RDAC)
  | Reset_device => reply_byte (reset_device board)
  | Restore_RDAC RDAC => reply_byte (restore_RDAC board RDAC)
  | Restore_all_RDAC => reply_byte (restore_all_RDAC board)
  | Store_RDAC RDAC => reply_byte (store_RDAC board RDAC)
  | Decrement_RDAC RDAC => reply_byte (decrement_RDAC board RDAC)
  | Increment_RDAC RDAC => reply_byte (increment_RDAC board RDAC)
  | Decrement_RDAC_6dB RDAC => reply_byte (decrement_RDAC_6dB board RDAC)
  | Increment_RDAC_6dB RDAC => reply_byte (increment_RDAC_6dB board RDAC)
  | Decrement_all_RDAC => reply_byte (decrement_all_RDAC board)
  | Increment_all_RDAC => reply_byte (increment_all_RDAC board)
  | Decrement_all_RDAC_6dB => reply_byte (decrement_all_RDAC_6dB board)
  | Increment_all_RDAC_6dB => reply_byte (increment_all_RDAC_6dB board)
  end.

(** A caller making one request after the other. *)
Fixpoint perform_all (board : Board) (rs : list Request) : M (list Reply) :=
  match rs with
  | [] => ret []
  | r :: rs' =>
      a <- perform board r ;;
      rest <- perform_all board rs' ;;
      ret (a :: rest)
  end.

(** The functions that return a status return the error; the functions that
    return data return 0 on error and leave the error in [err_code]. *)
Definition reply_on_error (r : Request) (e : Z) : Reply :=
  match r with
  | Read_RDAC _ | Read_EEMEM _ => Byte 0
  | Read_tolerance _ => Float 0
  | _ => Byte e
  end.

(** The register index a request carries and the bound the driver checks it
    against, when it carries one. *)
Definition index_and_bound (r : Request) : option (Z * Z) :=
  match r with
  | Write_RDAC RDAC _ | Read_RDAC RDAC | Read_tolerance RDAC
  | Restore_RDAC RDAC | Store_RDAC RDAC
  | Decrement_RDAC RDAC | Increment_RDAC RDAC
  | Decrement_RDAC_6dB RDAC | Increment_RDAC_6dB RDAC =>
      Some (RDAC, max_RDAC_register)
  | Write_EEMEM reg _ | Read_EEMEM reg => Some (reg, max_EEMEM_register)
  | _ => None
  end.

(** ** The tolerance, following the words of the specification

    "The integer byte's high bit (0x80) is a sign flag; the magnitude is the
    low 7 bits; if the sign flag is set the magnitude is negated. For each set
    bit at position [i] counted from the high bit (i = 0 for bit 7, i = 7 for
    bit 0), the decoded value accumulates 2^-(i+1)." *)

Definition spec_signed_integer (I : Z) : Q :=
  let magnitude := inject_Z (Z.land I 0x7F) in
  if Z.testbit I 7 then (- magnitude)%Q else magnitude.

Definition spec_bit_weight (F i : Z) : Q :=
  if Z.testbit F (7 - i) then (2 ^ (- (i + 1)))%Q else 0%Q.

Definition spec_fraction (F : Z) : Q :=
  fold_right Qplus 0%Q (map (spec_bit_weight F) [0; 1; 2; 3; 4; 5; 6; 7]).

Definition spec_tolerance (I F : Z) : Q :=
  (spec_signed_integer I + spec_fraction F)%Q.

(** The values [output] takes in [read_tolerance]: after the conversion of
    the integer byte ([n = 0]) and after each of the first [n] turns of the
    loop. *)
Definition tolerance_output_after (n : nat) (tol_int_data tol_dec_data : Z) : Q :=
  let output := inject_Z (Z.land (Z.lnot sign_mask) tol_int_data) in
  let output :=
    if Z.land sign_mask tol_int_data =? 0 then output
    else (output * (-1))%Q in
  fold_left (add_fraction_bit tol_dec_data) (firstn n fraction_bits) output.

(** The weight of the bit tested in turn [i], in units of 2^-8. *)
Definition weight_256 (i : Z) : Z := 2 ^ (7 - i).

(** A rational that a binary32 [float] holds exactly: a significand of at
    most 24 bits and an exponent in the range of the format. *)
Definition binary32 (q : Q) : Prop :=
  exists m e : Z,
    Z.abs m < 2 ^ 24 /\ -149 <= e <= 104 /\ (q == inject_Z m * 2 ^ e)%Q.

(** ** Boards for the examples *)

(** The register address of the last [Wire.write] in the log. *)
Fixpoint last_written (l : Wire.log) (default : Z) : Z :=
  match l with
  | [] => default
  | Wire.write d :: l' => last_written l' d
  | _ :: l' => last_written l' default
  end.

(** A device whose tolerance registers hold +5.5 % for wiper 0 and -5.0 %
    for wiper 1. *)
Definition tolerance_rom (register_addr : Z) : Z :=
  if register_addr =? 0x38 then 0x05
  else if register_addr =? 0x39 then 0x80
  else if register_addr =? 0x3A then 0x85
  else 0x00.

(** A platform that makes the address of a dead local array null. *)
Definition null_for_local (l : Wire.log) (held : option (list Z))
  : option (list Z) := None.

(** A bus on which every transmission is acknowledged and every request is
    answered with one byte, on a platform that makes the address of a dead
    local array null. *)
Definition demo_board : Board :=
  mkBoard (fun _ => 0) (fun _ => 1) (fun _ => 1)
          (fun l => tolerance_rom (last_written l 0)) null_for_local.

(** A bus on which nothing answers: the address is not acknowledged. *)
Definition silent_board : Board :=
  mkBoard (fun _ => EC_NACK_ADDR) (fun _ => 0) (fun _ => 0) (fun _ => -1)
          null_for_local.

(** A handle as it stands after a successful [initialize(0)]. *)
Definition ready (c : Class) : State := mkState c true 0x2C 0 [Wire.begin].

(** A handle on which [initialize] was never called. *)
Definition fresh (c : Class) : State := mkState c false 0 0 [].

(** ** The outcomes the specification describes *)

(** The variant table: the maximum wiper value of each concrete variant. *)
Definition variant_max (c : Class) : option Z :=
  match c with
  | AD525x => None
  | AD5253 => Some 63
  | AD5254 => Some 255
  end.

(** The bytes of one write transaction to the device of handle [s]. *)
Definition transaction (s : State) (bytes : list Z) : Wire.log :=
  Wire.beginTransmission (dev_addr s) :: map Wire.write bytes.

(** The result of one write transaction of [bytes] and the handle after it:
    the transaction is appended to the log and the answer of the transport
    is both returned and stored as the last error. *)
Definition after_transaction (board : Board) (s : State) (bytes : list Z)
  : Z * State :=
  let sent := wire s ++ transaction s bytes in
  let result := u8 (endTransmission_answer board sent) in
  (result,
   mkState (class s) (initialized s) (dev_addr s) result
           (sent ++ [Wire.endTransmission])).

(** The commands that take a wiper index, each with its opcode in the
    table of the specification. *)
Definition indexed_commands (board : Board) : list ((Z -> M Z) * Z) :=
  [ (restore_RDAC board, 0x88);
    (store_RDAC board, 0x90);
    (decrement_RDAC_6dB board, 0x98);
    (decrement_RDAC board, 0xA8);
    (increment_RDAC_6dB board, 0xC0);
    (increment_RDAC board, 0xD0) ].

(** The commands that take no index, each with its opcode in the table. *)
Definition broadcast_commands (board : Board) : list (M Z * Z) :=
  [ (reset_device board, 0x80);
    (decrement_all_RDAC_6dB board, 0xA0);
    (decrement_all_RDAC board, 0xB0);
    (restore_all_RDAC board, 0xB8);
    (increment_all_RDAC_6dB board, 0xC8);
    (increment_all_RDAC board, 0xD8) ].

(** The value check of a write request fires, as the driver performs it:
    [value > max_value] in [write_RDAC], the test of line 142 in
    [write_EEMEM]. The base class has no maximum and refuses every write. *)
Definition value_refused (c : Class) (r : Request) : Prop :=
  match r with
  | Write_RDAC _ value =>
      forall max, variant_max c = Some max -> max < value
  | Write_EEMEM reg value =>
      forall max, variant_max c = Some max ->
                  reg <= max_RDAC_register /\ value < max
  | _ => False
  end.

(** The index of a request lies beyond its bound. *)
Definition index_refused (r : Request) : Prop :=
  exists i bound, index_and_bound r = Some (i, bound) /\ bound < i.

(** ** The steps of a one-byte read

    The log as it stands when each answer of the peripheral is asked for in
    [read_data_byte], on the handle [s] and for the register
    [register_addr]. *)

(** When the first [Wire.endTransmission] is asked. *)
Definition log_at_select (s : State) (register_addr : Z) : Wire.log :=
  wire s ++ [Wire.beginTransmission (dev_addr s); Wire.write register_addr].

(** When [Wire.requestFrom] is asked. *)
Definition log_at_request (s : State) (register_addr : Z) : Wire.log :=
  wire s ++ [Wire.beginTransmission (dev_addr s); Wire.write register_addr;
             Wire.endTransmission; Wire.beginTransmission (dev_addr s)].

(** When [Wire.available] is asked. *)
Definition log_at_available (s : State) (register_addr : Z) : Wire.log :=
  wire s ++ [Wire.beginTransmission (dev_addr s); Wire.write register_addr;
             Wire.endTransmission; Wire.beginTransmission (dev_addr s);
             Wire.requestFrom (dev_addr s) 1].

(** When [Wire.read] is asked. *)
Definition log_at_read (s : State) (register_addr : Z) : Wire.log :=
  wire s ++ [Wire.beginTransmission (dev_addr s); Wire.write register_addr;
             Wire.endTransmission; Wire.beginTransmission (dev_addr s);
             Wire.requestFrom (dev_addr s) 1; Wire.available].

(** When the last [Wire.endTransmission] is asked, after the byte was
    fetched. *)
Definition log_at_close (s : State) (register_addr : Z) : Wire.log :=
  wire s ++ [Wire.beginTransmission (dev_addr s); Wire.write register_addr;
             Wire.endTransmission; Wire.beginTransmission (dev_addr s);
             Wire.requestFrom (dev_addr s) 1; Wire.available; Wire.read].

(** The handle [s] with last error [e] and log [l]. *)
Definition left_with (s : State) (e : Z) (l : Wire.log) : State :=
  mkState (class s) (initialized s) (dev_addr s) e l.

(** What [read_data_byte] makes of the pointer [rv] it gets:
    [if(rv == NULL) return 0; return rv[0];]. *)
Definition found_through (rv : option (list Z)) : Z :=
  match rv with
  | None => 0
  | Some found => nth 0 found 0
  end.

(** ** Frames

    What an operation on the device may change: the last error and the log,
    which only grows, by calls addressed to the device of the handle. *)

(** A call other than [Wire.begin] that names no other bus address than
    [a]. *)
Definition addressed_to (a : Z) (c : Wire.call) : Prop :=
  match c with
  | Wire.begin => False
  | Wire.beginTransmission a' => a' = a
  | Wire.requestFrom a' _ => a' = a
  | _ => True
  end.

Definition same_device (s s' : State) : Prop :=
  class s' = class s /\
  initialized s' = initialized s /\
  dev_addr s' = dev_addr s /\
  exists l, wire s' = wire s ++ l /\ Forall (addressed_to (dev_addr s)) l.

(** A byte. *)
Definition is_byte (b : Z) : Prop := 0 <= b < 256.

(** ** Requests and their instruction bytes *)

(** The requests that go through [get_max_val]. *)
Definition is_write (r : Request) : bool :=
  match r with
  | Write_RDAC _ _ | Write_EEMEM _ _ => true
  | _ => false
  end.

(** The index of a request, when it carries one, lies between 0 and its
    bound. *)
Definition index_in_bounds (r : Request) : Prop :=
  match index_and_bound r with
  | Some (i, bound) => 0 <= i <= bound
  | None => True
  end.

(** The handle [s] as an object of class [c]. *)
Definition with_class (c : Class) (s : State) : State :=
  mkState c (initialized s) (dev_addr s) (err_code s) (wire s).

(** The first byte each member function writes to the device: the
    [instr_addr] of the register functions, the argument of [write_cmd] in
    the commands. *)
Definition instruction (r : Request) : Z :=
  match r with
  | Write_RDAC RDAC _ | Read_RDAC RDAC => Z.lor RDAC_register RDAC
  | Write_EEMEM reg _ | Read_EEMEM reg => Z.lor EEMEM_register reg
  | Read_tolerance RDAC =>
      Z.lor (u8 (Z.lor Tolerance_register (Z.shiftl RDAC 1))) Tol_int
  | Reset_device => CMD_NOP
  | Restore_RDAC RDAC => Z.lor CMD_Restore_RDAC RDAC
  | Restore_all_RDAC => CMD_Restore_All_RDAC
  | Store_RDAC RDAC => Z.lor CMD_Store_RDAC RDAC
  | Decrement_RDAC RDAC => Z.lor CMD_Dec_RDAC_step RDAC
  | Increment_RDAC RDAC => Z.lor CMD_Inc_RDAC_step RDAC
  | Decrement_RDAC_6dB RDAC => Z.lor CMD_Dec_RDAC_6dB RDAC
  | Increment_RDAC_6dB RDAC => Z.lor CMD_Inc_RDAC_6dB RDAC
  | Decrement_all_RDAC => CMD_Dec_All_RDAC_step
  | Increment_all_RDAC => CMD_Inc_All_RDAC_step
  | Decrement_all_RDAC_6dB => CMD_Dec_All_RDAC_6dB
  | Increment_all_RDAC_6dB => CMD_Inc_All_RDAC_6dB
  end.

(** The register or command a request names: a write names the register
    its read names. *)
Definition target (r : Request) : Request :=
  match r with
  | Write_RDAC RDAC _ => Read_RDAC RDAC
  | Write_EEMEM reg _ => Read_EEMEM reg
  | _ => r
  end.

(** Reading back the first instruction byte of a request: the top bits
    select the class, the low bits the index. The odd tolerance addresses
    are the fraction registers, which no request addresses first. *)
Definition decode_instruction (b : Z) : option Request :=
  if b <? 0x04 then Some (Read_RDAC b)
  else if (0x20 <=? b) && (b <? 0x30) then Some (Read_EEMEM (Z.land b 0x0F))
  else if (0x38 <=? b) && (b <? 0x40) then
    (if Z.testbit b 0 then None
     else Some (Read_tolerance (Z.shiftr (Z.land b 0x06) 1)))
  else
    let index := Z.land b 0x07 in
    let opcode := Z.land b 0xF8 in
    if opcode =? 0x80 then Some Reset_device
    else if opcode =? 0x88 then Some (Restore_RDAC index)
    else if opcode =? 0x90 then Some (Store_RDAC index)
    else if opcode =? 0x98 then Some (Decrement_RDAC_6dB index)
    else if opcode =? 0xA0 then Some Decrement_all_RDAC_6dB
    else if opcode =? 0xA8 then Some (Decrement_RDAC index)
    else if opcode =? 0xB0 then Some Decrement_all_RDAC
    else if opcode =? 0xB8 then Some Restore_all_RDAC
    else if opcode =? 0xC0 then Some (Increment_RDAC_6dB index)
    else if opcode =? 0xC8 then Some Increment_all_RDAC_6dB
    else if opcode =? 0xD0 then Some (Increment_RDAC index)
    else if opcode =? 0xD8 then Some Increment_all_RDAC
    else None.

(** ** The sketches

    Each sketch is its globals and the two functions the Arduino core
    calls: [setup] once, then [loop] for ever. [delay] is left out: it only
    waits. The potentiometer object is declared without arguments, so that
    its fields hold what the memory held until [initialize] is called. *)

(** Narrowing to [int16_t]. *)
Definition i16 (x : Z) : Z := (x + 32768) mod 65536 - 32768.

Module AD5253_basic_demo.

(** The globals the sketch writes: [ad3], [wiper_val] and [max_val]. *)
Record Sketch : Type := mkSketch {
  ad3 : State;
  wiper_val : Z;
  max_val : Z
}.

Definition AD_addr : Z := 0.
Definition RDAC : Z := 0.

(** The globals at reset, around an object of class AD5253. *)
Definition at_reset (object : State) : Sketch :=
  mkSketch (with_class AD5253 object) 0 0.

Definition setup (g : Sketch) : Sketch :=
  let (_, pot) := initialize AD_addr (ad3 g) in
  let (m, pot) := get_max_val pot in
  mkSketch pot (wiper_val g) m.

(** [ad3.write_RDAC(RDAC, wiper_val++);] passes the value before the
    increment. *)
Definition loop (board : Board) (g : Sketch) : Sketch :=
  let value := wiper_val g in
  let incremented := u8 (wiper_val g + 1) in
  let (_, pot) := write_RDAC board RDAC value (ad3 g) in
  let restarted := if incremented >? max_val g then 0 else incremented in
  mkSketch pot restarted (max_val g).

End AD5253_basic_demo.

Module AD5254_all_demo.

(** The globals the sketch writes: [ad4], the [int16_t wiper_val], the
    [int8_t inc_direction] and [max_val]. *)
Record Sketch : Type := mkSketch {
  ad4 : State;
  wiper_val : Z;
  inc_direction : Z;
  max_val : Z
}.

Definition AD_addr : Z := 0.
Definition increment_val : Z := 1.

Definition at_reset (object : State) : Sketch :=
  mkSketch (with_class AD5254 object) 0 1 0.

Definition setup (g : Sketch) : Sketch :=
  let (_, pot) := initialize AD_addr (ad4 g) in
  let (m, pot) := get_max_val pot in
  mkSketch pot (wiper_val g) (inc_direction g) m.

(** [for(byte RDAC = 0; RDAC < 4; RDAC++) ad4.write_RDAC(RDAC, wiper_val);]
    where the [int16_t] is narrowed to the [uint8_t] parameter. *)
Definition write_all (board : Board) (value : Z) (pot : State) : State :=
  fold_left (fun pot RDAC => snd (write_RDAC board RDAC (u8 value) pot))
            [0; 1; 2; 3] pot.

Definition loop (board : Board) (g : Sketch) : Sketch :=
  let pot := write_all board (wiper_val g) (ad4 g) in
  let moved := i16 (wiper_val g + increment_val * inc_direction g) in
  if moved >=? max_val g then mkSketch pot (max_val g) (-1) (max_val g)
  else if moved <=? 0 then mkSketch pot 0 1 (max_val g)
  else mkSketch pot moved (inc_direction g) (max_val g).

End AD5254_all_demo.

(** The value the triangle wave of [AD5254_all_demo] has after [n] turns:
    up from 0 to 255, then down again, with period 510. *)
Definition triangle (n : Z) : Z :=
  let m := n mod 510 in
  if m <=? 255 then m else 510 - m.

(** The two sketches that drive the wiper by commands differ only in the
    pair of commands they send. *)

Module AD5254_sawtooth_cmd.

Record Sketch : Type := mkSketch {
  ad4 : State;
  max_val : Z;
  going_up : bool
}.

Definition RDAC : Z := 0x00.
Definition AD_addr : Z := 0.

Definition at_reset (object : State) : Sketch :=
  mkSketch (with_class AD5254 object) 0 true.

Definition setup (board : Board) (g : Sketch) : Sketch :=
  let (_, pot) := initialize AD_addr (ad4 g) in
  let (_, pot) := reset_device board pot in
  let (m, pot) := get_max_val pot in
  mkSketch pot m (going_up g).

Definition loop (board : Board) (g : Sketch) : Sketch :=
  let (wiper_val, pot) := read_RDAC board RDAC (ad4 g) in
  let going_up :=
    if wiper_val =? max_val g then false
    else if wiper_val =? 0 then true
    else going_up g in
  let (_, pot) :=
    if going_up then increment_RDAC board RDAC pot
    else decrement_RDAC board RDAC pot in
  mkSketch pot (max_val g) going_up.

End AD5254_sawtooth_cmd.

Module AD5254_exponent_cmd.

Record Sketch : Type := mkSketch {
  ad4 : State;
  max_val : Z;
  going_up : bool
}.

Definition RDAC : Z := 0x00.
Definition AD_addr : Z := 0.

Definition at_reset (object : State) : Sketch :=
  mkSketch (with_class AD5254 object) 0 true.

Definition setup (board : Board) (g : Sketch) : Sketch :=
  let (_, pot) := initialize AD_addr (ad4 g) in
  let (_, pot) := reset_device board pot in
  let (m, pot) := get_max_val pot in
  mkSketch pot m (going_up g).

Definition loop (board : Board) (g : Sketch) : Sketch :=
  let (wiper_val, pot) := read_RDAC board RDAC (ad4 g) in
  let going_up :=
    if wiper_val =? max_val g then false
    else if wiper_val =? 0 then true
    else going_up g in
  let (_, pot) :=
    if going_up then increment_RDAC_6dB board RDAC pot
    else decrement_RDAC_6dB board RDAC pot in
  mkSketch pot (max_val g) going_up.

End AD5254_exponent_cmd.

(** One write transaction to the device at [0x2C], as the sketches with
    [AD_addr = 0] produce them. *)
Definition sent_to_0x2C (bytes : list Z) : Wire.log :=
  Wire.beginTransmission 0x2C :: map Wire.write bytes ++ [Wire.endTransmission].

(** The direction of the triangle wave after [n] turns. *)
Definition triangle_direction (n : Z) : Z :=
  if 255 <=? n mod 510 then -1 else 1.

(** ** The earlier driver ([AD525x.cpp] at the root of the sources)

    The earlier version of the class has a constructor in place of
    [initialize], keeps the maximum wiper value in the field [max_val], which
    the constructors of the two variants set, and has no [initialized]
    flag. Its functions are written here in state-passing style. *)

From Stdlib Require Import String.

Module Legacy.

(** [AD5253_max] and [AD5254_max]. *)
Definition AD5253_max : Z := 63.
Definition AD5254_max : Z := 255.

(** The fields of the object, together with the log of the peripheral. *)
Record Object : Type := mkObject {
  dev_addr : Z;
  max_val : Z;
  err_code : Z;
  wire : Wire.log
}.

Definition set_max_val (m : Z) (o : Object) : Object :=
  mkObject (dev_addr o) m (err_code o) (wire o).

Definition set_err_code (e : Z) (o : Object) : Object :=
  mkObject (dev_addr o) (max_val o) e (wire o).

Definition emit (c : Wire.call) (o : Object) : Object :=
  mkObject (dev_addr o) (max_val o) (err_code o) (wire o ++ [c]).

(** [err_code = Wire.endTransmission();] *)
Definition endTransmission_into_err_code (board : Board) (o : Object) : Object :=
  let e := u8 (endTransmission_answer board (wire o)) in
  set_err_code e (emit Wire.endTransmission o).

(** The constructor, on a peripheral whose log is [w]. *)
Definition AD525x (AD_addr : Z) (w : Wire.log) : Object :=
  let AD_addr := if AD_addr >? 3 then 0x00 else AD_addr in
  emit Wire.begin (mkObject (Z.lor base_I2C_addr AD_addr) 0 0 w).

Definition AD5253 (AD_addr : Z) (w : Wire.log) : Object :=
  set_max_val AD5253_max (AD525x AD_addr w).

Definition AD5254 (AD_addr : Z) (w : Wire.log) : Object :=
  set_max_val AD5254_max (AD525x AD_addr w).

Definition write_data (board : Board) (register_addr data : Z) (o : Object)
  : Z * Object :=
  let o := emit (Wire.beginTransmission (dev_addr o)) o in
  let o := emit (Wire.write register_addr) o in
  let o := emit (Wire.write data) o in
  let o := endTransmission_into_err_code board o in
  (err_code o, o).

Fixpoint read_into_buff (board : Board) (length : nat) (o : Object)
  : list Z * Object :=
  match length with
  | O => ([], o)
  | S length' =>
      let b := read_answer board (wire o) in
      let (rest, o') := read_into_buff board length' (emit Wire.read o) in
      (u8 b :: rest, o')
  end.

(** [NULL] is [None]. As in the later driver, [return buff;] returns the
    address of a local array, and the caller finds through it what the
    platform yields. *)
Definition read_data (board : Board) (register_addr length : Z) (o : Object)
  : option (list Z) * Object :=
  let o := emit (Wire.beginTransmission (dev_addr o)) o in
  let o := emit (Wire.write register_addr) o in
  let o := endTransmission_into_err_code board o in
  if err_code o >? 0 then (None, o)
  else
    let o := emit (Wire.beginTransmission (dev_addr o)) o in
    let n_bytes := u8 (requestFrom_answer board (wire o)) in
    let o := emit (Wire.requestFrom (dev_addr o) length) o in
    if negb (n_bytes =? length) then (None, set_err_code EC_BAD_READ_SIZE o)
    else
      let avail := available_answer board (wire o) in
      let o := emit Wire.available o in
      let (buff, o) :=
        if avail =? length then
          let (written, o) := read_into_buff board (Z.to_nat length) o in
          (Some written, o)
        else (None, o) in
      let o := endTransmission_into_err_code board o in
      if err_code o >? 0 then (None, o)
      else (returned_local board (wire o) buff, o).

Definition write_RDAC (board : Board) (RDAC value : Z) (o : Object)
  : Z * Object :=
  if RDAC >? 3 then (EC_BAD_REGISTER, set_err_code EC_BAD_REGISTER o)
  else if value >? max_val o then
    (EC_BAD_WIPER_SETTING, set_err_code EC_BAD_WIPER_SETTING o)
  else
    let instr_addr := Z.lor RDAC_register RDAC in
    let (e, o) := write_data board instr_addr value o in
    (e, set_err_code e o).

Definition read_RDAC (board : Board) (RDAC : Z) (o : Object) : Z * Object :=
  if RDAC >? 3 then (EC_BAD_REGISTER, set_err_code EC_BAD_REGISTER o)
  else
    let instr_addr := Z.lor RDAC_register RDAC in
    let (rv, o) := read_data board instr_addr 1 o in
    match rv with
    | None => (0, o)
    | Some found => (nth 0 found 0, o)
    end.

Definition write_EEMEM (board : Board) (reg value : Z) (o : Object)
  : Z * Object :=
  if (reg <? 4) && (value <? max_val o) then
    (EC_BAD_WIPER_SETTING, set_err_code EC_BAD_WIPER_SETTING o)
  else if reg >? 15 then (EC_BAD_REGISTER, set_err_code EC_BAD_REGISTER o)
  else
    let instr_addr := Z.lor EEMEM_register reg in
    let (e, o) := write_data board instr_addr value o in
    (e, set_err_code e o).

Definition read_EEMEM (board : Board) (reg : Z) (o : Object) : Z * Object :=
  if reg >? 15 then (EC_BAD_REGISTER, set_err_code EC_BAD_REGISTER o)
  else
    let instr_addr := Z.lor EEMEM_register reg in
    let (rv, o) := read_data board instr_addr 1 o in
    match rv with
    | None => (0, o)
    | Some found => (nth 0 found 0, o)
    end.

Definition get_err_code (o : Object) : Z := err_code o.

(** The error strings of the header. *)
Definition EC_NO_ERR_str : string := "No error.".
Definition EC_DATA_LONG_str : string :=
  "Data too long to fit in transmit buffer.".
Definition EC_NACK_ADDR_str : string :=
  "Received NACK on transmit of address.".
Definition EC_NACK_DATA_str : string := "Received NACK on transmit of data.".
Definition EC_I2C_OTHER_str : string := "Other I2C error.".
Definition EC_BAD_REGISTER_str : string := "Invalid register.".
Definition EC_BAD_WIPER_SETTING_str : string := "Invalid wiper setting.".
Definition EC_BAD_READ_SIZE_str : string :=
  "Invalid number of bytes read from register.".
Definition EC_BAD_DEVICE_ADDR_str : string :=
  "Bad device address - device address must be in [0, 3].".
Definition EC_UNKNOWN_ERR_str : string := "Unknown error.".

(** The [switch] of [get_error_string]: eight cases and the default. *)
Definition get_error_string (error_code : Z) : string :=
  if error_code =? EC_NO_ERR then EC_NO_ERR_str
  else if error_code =? EC_DATA_LONG then EC_DATA_LONG_str
  else if error_code =? EC_NACK_ADDR then EC_NACK_ADDR_str
  else if error_code =? EC_NACK_DATA then EC_NACK_DATA_str
  else if error_code =? EC_I2C_OTHER then EC_I2C_OTHER_str
  else if error_code =? EC_BAD_REGISTER then EC_BAD_REGISTER_str
  else if error_code =? EC_BAD_WIPER_SETTING then EC_BAD_WIPER_SETTING_str
  else if error_code =? EC_BAD_READ_SIZE then EC_BAD_READ_SIZE_str
  else EC_UNKNOWN_ERR_str.

Definition get_error_text (o : Object) : string :=
  get_error_string (err_code o).

End Legacy.

(** The requests whose function returns a status. *)
Definition returns_status (r : Request) : bool :=
  match r with
  | Read_RDAC _ | Read_EEMEM _ | Read_tolerance _ => false
  | _ => true
  end.


(** * Properties *)

(** ** Proof steps *)

Ltac unfold_members :=
  cbv beta iota zeta delta
    [ perform reply_byte reply_float
      initialize write_RDAC read_RDAC write_EEMEM read_EEMEM read_tolerance
      reset_device restore_RDAC restore_all_RDAC store_RDAC
      decrement_RDAC increment_RDAC decrement_RDAC_6dB increment_RDAC_6dB
      decrement_all_RDAC increment_all_RDAC
      decrement_all_RDAC_6dB increment_all_RDAC_6dB
      get_max_val AD525x_get_max_val AD5253_get_max_val AD5254_get_max_val
      get_err_code write_cmd write_data
      Wire_begin Wire_beginTransmission Wire_write Wire_endTransmission
      emit fail_with assign field bind ret
      set_initialized set_dev_addr set_err_code set_wire
      class initialized dev_addr err_code wire
      after_transaction transaction map
      negb andb
      max_AD_addr max_RDAC_register max_EEMEM_register
      AD5253_max_val AD5254_max_val ].

Ltac decide_test :=
  match goal with
  | |- context [?x >? ?y] => destruct (Z.gtb_spec x y); try lia
  | |- context [?x <? ?y] => destruct (Z.ltb_spec x y); try lia
  | |- context [?x <=? ?y] => destruct (Z.leb_spec x y); try lia
  | |- context [?x =? ?y] => destruct (Z.eqb_spec x y); try lia
  end.

Ltac run := unfold_members; repeat (decide_test; unfold_members).

Lemma app_transaction (l : Wire.log) (a x : Z) :
  (l ++ [Wire.beginTransmission a]) ++ [Wire.write x] =
  l ++ [Wire.beginTransmission a; Wire.write x].
Proof. now rewrite <- app_assoc. Qed.

Lemma app_transaction2 (l : Wire.log) (a x y : Z) :
  ((l ++ [Wire.beginTransmission a]) ++ [Wire.write x]) ++ [Wire.write y] =
  l ++ [Wire.beginTransmission a; Wire.write x; Wire.write y].
Proof. now rewrite <- !app_assoc. Qed.

(** ** initialize *)

Lemma initialize_succeeds_up_to_3 (s : State) (AD_addr : Z) :
  0 <= AD_addr <= 3 ->
  initialize AD_addr s =
    (0, mkState (class s) true (Z.lor 0x2C AD_addr) (err_code s)
                (wire s ++ [Wire.begin])).
Proof. destruct s as [c init a e w]; intros H; run; reflexivity. Qed.

Lemma initialize_fails_above_3 (s : State) (AD_addr : Z) :
  3 < AD_addr ->
  initialize AD_addr s =
    (EC_BAD_DEVICE_ADDR,
     mkState (class s) false (dev_addr s) EC_BAD_DEVICE_ADDR (wire s)).
Proof. destruct s as [c init a e w]; intros H; run; reflexivity. Qed.

(** C5. For every selector in [0, 3], [initialize] returns 0, sets the bus
    address to [0x2C | selector] and sets [initialized]; for every selector
    above 3 it returns [EC_BAD_DEVICE_ADDR] (8) and leaves the handle
    uninitialized. *)
Theorem initialize_selector (s : State) (AD_addr : Z) :
  (0 <= AD_addr <= 3 ->
   initialize AD_addr s =
     (0, mkState (class s) true (Z.lor 0x2C AD_addr) (err_code s)
                 (wire s ++ [Wire.begin]))) /\
  (3 < AD_addr ->
   initialize AD_addr s =
     (EC_BAD_DEVICE_ADDR,
      mkState (class s) false (dev_addr s) EC_BAD_DEVICE_ADDR (wire s))).
Proof.
  split; [apply initialize_succeeds_up_to_3 | apply initialize_fails_above_3].
Qed.

Lemma initialize_selector_witness :
  initialize 2 (fresh AD5253) =
    (0, mkState AD5253 true 0x2E 0 [Wire.begin]) /\
  initialize 4 (ready AD5253) =
    (8, mkState AD5253 false 0x2C 8 [Wire.begin]).
Proof.
  split.
  - apply (proj1 (initialize_selector (fresh AD5253) 2)); lia.
  - apply (proj2 (initialize_selector (ready AD5253) 4)); lia.
Defined.

(** ** write_RDAC *)

(** C4. On an initialized handle of a concrete variant, [write_RDAC] fails
    with [EC_BAD_REGISTER] (5) for every index above 3 whatever the value,
    fails with [EC_BAD_WIPER_SETTING] (6) for an index in [0, 3] and a value
    above the maximum of the variant, and otherwise issues exactly one
    two-byte write of [(0x00 | index, value)] and returns the result of the
    transport unchanged. *)
Theorem write_RDAC_concrete (board : Board) (s : State) (max RDAC value : Z) :
  initialized s = true ->
  variant_max (class s) = Some max ->
  (3 < RDAC ->
   write_RDAC board RDAC value s =
     (EC_BAD_REGISTER, set_err_code EC_BAD_REGISTER s)) /\
  (0 <= RDAC <= 3 -> max < value ->
   write_RDAC board RDAC value s =
     (EC_BAD_WIPER_SETTING, set_err_code EC_BAD_WIPER_SETTING s)) /\
  (0 <= RDAC <= 3 -> value <= max ->
   write_RDAC board RDAC value s =
     after_transaction board s [Z.lor 0x00 RDAC; value]).
Proof.
  destruct s as [c init a e w]; simpl; intros -> Hmax.
  destruct c; inversion Hmax; subst max; (split; [|split]); intros;
    run; rewrite ?app_transaction2; reflexivity.
Qed.

Lemma write_RDAC_concrete_witness :
  write_RDAC demo_board 4 10 (ready AD5253) =
    (5, mkState AD5253 true 0x2C 5 [Wire.begin]) /\
  write_RDAC demo_board 3 64 (ready AD5253) =
    (6, mkState AD5253 true 0x2C 6 [Wire.begin]) /\
  write_RDAC silent_board 3 63 (ready AD5253) =
    (2, mkState AD5253 true 0x2C 2
          [Wire.begin; Wire.beginTransmission 0x2C; Wire.write 3;
           Wire.write 63; Wire.endTransmission]).
Proof.
  split; [|split].
  - apply (proj1 (write_RDAC_concrete demo_board (ready AD5253) 63 4 10
                    eq_refl eq_refl)); lia.
  - apply (proj1 (proj2 (write_RDAC_concrete demo_board (ready AD5253) 63 3 64
                           eq_refl eq_refl))); lia.
  - apply (proj2 (proj2 (write_RDAC_concrete silent_board (ready AD5253) 63 3 63
                           eq_refl eq_refl))); lia.
Defined.

(** ** get_max_val *)

(** C9. [AD525x::get_max_val] sets the last error to [EC_NOT_IMPLEMENTED]
    (9) and returns 0, [AD5253::get_max_val] returns 63 and
    [AD5254::get_max_val] returns 255; hence on an initialized handle of the
    base class [write_RDAC] returns [EC_NOT_IMPLEMENTED] for every index in
    [0, 3] and every value, and makes no call to the transport. *)
Theorem get_max_val_base_not_implemented :
  (forall s, AD525x_get_max_val s = (0, set_err_code EC_NOT_IMPLEMENTED s)) /\
  (forall s, AD5253_get_max_val s = (63, s)) /\
  (forall s, AD5254_get_max_val s = (255, s)) /\
  (forall s, get_max_val s =
     match class s with
     | AD525x => AD525x_get_max_val s
     | AD5253 => AD5253_get_max_val s
     | AD5254 => AD5254_get_max_val s
     end) /\
  (forall board s RDAC value,
     class s = AD525x -> initialized s = true -> 0 <= RDAC <= 3 ->
     write_RDAC board RDAC value s =
       (EC_NOT_IMPLEMENTED, set_err_code EC_NOT_IMPLEMENTED s)).
Proof.
  split; [reflexivity|]. split; [reflexivity|]. split; [reflexivity|]. split.
  - intros [[] init a e w]; reflexivity.
  - intros board [c init a e w] RDAC value; simpl; intros -> -> H.
    run; reflexivity.
Qed.

Lemma get_max_val_base_not_implemented_witness :
  write_RDAC demo_board 2 10 (ready AD525x) =
    (9, mkState AD525x true 0x2C 9 [Wire.begin]).
Proof.
  apply (proj2 (proj2 (proj2 (proj2 get_max_val_base_not_implemented)))
           demo_board (ready AD525x) 2 10 eq_refl eq_refl); lia.
Defined.

(** ** write_EEMEM *)

(** C1, at inputs where the driver departs from it. On an initialized
    AD5253 (maximum 63), [write_EEMEM(1, 10)] is refused with
    [EC_BAD_WIPER_SETTING] although 10 does not exceed the maximum, and
    [write_EEMEM(1, 200)] is sent to the device although 200 exceeds it: the
    test of line 142 reads [value < max_value]. *)
Theorem write_EEMEM_shadow_test_inverted (board : Board) :
  write_EEMEM board 1 10 (ready AD5253) =
    (EC_BAD_WIPER_SETTING, set_err_code EC_BAD_WIPER_SETTING (ready AD5253)) /\
  write_EEMEM board 1 200 (ready AD5253) =
    after_transaction board (ready AD5253) [Z.lor 0x20 1; 200].
Proof. split; reflexivity. Qed.

(** C2. On an initialized handle of a concrete variant, [write_EEMEM(1,
    value)] with [value] below the maximum of the variant fails with
    [EC_BAD_WIPER_SETTING] (6), and [write_EEMEM(5, 200)] issues the write of
    [(0x20 | 5, 200)] whatever the maximum, returning the result of the
    transport, which is 0 when the transport reports no error. *)
Theorem write_EEMEM_register_1_and_register_5
    (board : Board) (s : State) (max : Z) :
  initialized s = true ->
  variant_max (class s) = Some max ->
  (forall value, value < max ->
     write_EEMEM board 1 value s =
       (EC_BAD_WIPER_SETTING, set_err_code EC_BAD_WIPER_SETTING s)) /\
  write_EEMEM board 5 200 s = after_transaction board s [Z.lor 0x20 5; 200] /\
  (endTransmission_answer board (wire s ++ transaction s [Z.lor 0x20 5; 200])
     = 0 ->
   fst (write_EEMEM board 5 200 s) = EC_NO_ERR).
Proof.
  destruct s as [c init a e w]; simpl; intros -> Hmax.
  assert (Hsend : write_EEMEM board 5 200 (mkState c true a e w) =
                  after_transaction board (mkState c true a e w)
                                    [Z.lor 0x20 5; 200]).
  { destruct c; inversion Hmax; run; rewrite ?app_transaction2; reflexivity. }
  split; [|split].
  - intros value Hlt. destruct c; inversion Hmax; subst max; run; reflexivity.
  - exact Hsend.
  - intros H0. rewrite Hsend. cbv beta zeta iota delta [after_transaction fst].
    match goal with
    | |- u8 ?answer = _ => replace answer with 0 by (symmetry; exact H0)
    end.
    reflexivity.
Qed.

Lemma write_EEMEM_register_1_and_register_5_witness :
  write_EEMEM demo_board 1 62 (ready AD5253) =
    (6, mkState AD5253 true 0x2C 6 [Wire.begin]) /\
  write_EEMEM demo_board 5 200 (ready AD5253) =
    (0, mkState AD5253 true 0x2C 0
          [Wire.begin; Wire.beginTransmission 0x2C; Wire.write 0x25;
           Wire.write 200; Wire.endTransmission]) /\
  fst (write_EEMEM demo_board 5 200 (ready AD5253)) = 0.
Proof.
  pose proof (write_EEMEM_register_1_and_register_5
                demo_board (ready AD5253) 63 eq_refl eq_refl) as [H1 [H5 H0]].
  split; [|split].
  - apply H1; lia.
  - exact H5.
  - apply H0; reflexivity.
Defined.

(** ** Device commands *)

(** C7. On an initialized handle every command is one single-byte
    transaction: the commands that take a wiper index in [0, 3] send their
    opcode or-ed with the index, the others send their opcode alone, with the
    opcodes of the table; so [restore_RDAC(2)] sends [0x8A] and
    [increment_all_RDAC_6dB()] sends [0xC8]. *)
Theorem commands_send_their_opcode (board : Board) (s : State) :
  initialized s = true ->
  Forall (fun command =>
            forall RDAC, 0 <= RDAC <= 3 ->
              fst command RDAC s =
                after_transaction board s [Z.lor (snd command) RDAC])
         (indexed_commands board) /\
  Forall (fun command =>
            fst command s = after_transaction board s [snd command])
         (broadcast_commands board) /\
  restore_RDAC board 2 s = after_transaction board s [0x8A] /\
  increment_all_RDAC_6dB board s = after_transaction board s [0xC8].
Proof.
  destruct s as [c init a e w]; simpl; intros ->.
  split; [|split; [|split]].
  - unfold indexed_commands.
    repeat (apply Forall_cons; [intros RDAC H; simpl fst; simpl snd|]);
      [ .. | apply Forall_nil ];
      run; rewrite ?app_transaction; reflexivity.
  - unfold broadcast_commands.
    repeat (apply Forall_cons; [simpl fst; simpl snd|]);
      [ .. | apply Forall_nil ];
      run; rewrite ?app_transaction; reflexivity.
  - run; rewrite ?app_transaction; reflexivity.
  - run; rewrite ?app_transaction; reflexivity.
Qed.

Lemma commands_send_their_opcode_witness :
  restore_RDAC silent_board 2 (ready AD5254) =
    (2, mkState AD5254 true 0x2C 2
          [Wire.begin; Wire.beginTransmission 0x2C; Wire.write 0x8A;
           Wire.endTransmission]) /\
  increment_all_RDAC_6dB demo_board (ready AD5254) =
    (0, mkState AD5254 true 0x2C 0
          [Wire.begin; Wire.beginTransmission 0x2C; Wire.write 0xC8;
           Wire.endTransmission]).
Proof.
  split.
  - apply (proj1 (proj2 (proj2 (commands_send_their_opcode
                                  silent_board (ready AD5254) eq_refl)))).
  - apply (proj2 (proj2 (proj2 (commands_send_their_opcode
                                  demo_board (ready AD5254) eq_refl)))).
Defined.

(** ** The last error *)

(** The operations on the device do not read the last error before they
    write it: what they return and the handle they leave do not depend on
    the error that was stored. *)
Lemma read_data_overwrites_err_code
    (board : Board) (register_addr length e : Z) (s : State) :
  read_data board register_addr length (set_err_code e s) =
  read_data board register_addr length s.
Proof. destruct s as [c init a e0 w]. reflexivity. Qed.

Lemma perform_overwrites_err_code
    (board : Board) (r : Request) (e : Z) (s : State) :
  perform board r (set_err_code e s) = perform board r s.
Proof.
  destruct s as [c init a e0 w].
  destruct r; destruct init; try reflexivity; destruct c; run; reflexivity.
Qed.

(** The functions that return a status return what they leave in
    [err_code]: a status of 0 comes with a last error of 0. *)
Lemma status_is_err_code (board : Board) (r : Request) (s : State) :
  match r with
  | Read_RDAC _ | Read_EEMEM _ | Read_tolerance _ => True
  | _ => fst (perform board r s) = Byte (err_code (snd (perform board r s)))
  end.
Proof.
  destruct s as [c init a e w].
  destruct r; try exact I; destruct init; try reflexivity;
    destruct c; run; reflexivity.
Qed.

(** C8, at an input where the driver departs from it. A failed
    [initialize(4)] leaves [EC_BAD_DEVICE_ADDR] in [err_code]; the
    [initialize(1)] that follows succeeds, returns 0 and sets [initialized],
    but does not write [err_code], which still holds 8. *)
Theorem initialize_success_leaves_err_code :
  let s1 := snd (initialize 4 (fresh AD5253)) in
  err_code s1 = EC_BAD_DEVICE_ADDR /\
  initialize 1 s1 =
    (0, mkState AD5253 true 0x2D EC_BAD_DEVICE_ADDR [Wire.begin]) /\
  get_err_code (snd (initialize 1 s1)) =
    (EC_BAD_DEVICE_ADDR, snd (initialize 1 s1)).
Proof. split; [|split]; reflexivity. Qed.

(** ** Validation comes before the transport *)

Lemma perform_uninitialized (board : Board) (r : Request) (s : State) :
  initialized s = false ->
  perform board r s =
    (reply_on_error r EC_NOT_INITIALIZED, set_err_code EC_NOT_INITIALIZED s).
Proof.
  destruct s as [c init a e w]; simpl; intros ->.
  destruct r; reflexivity.
Qed.

Lemma perform_index_refused (board : Board) (r : Request) (s : State) :
  initialized s = true ->
  index_refused r ->
  wire (snd (perform board r s)) = wire s /\
  err_code (snd (perform board r s)) <> EC_NO_ERR.
Proof.
  destruct s as [c init a e w]; simpl; intros -> (i & bound & Hr & Hlt).
  destruct r; simpl in Hr; inversion Hr; subst i bound;
    unfold max_RDAC_register, max_EEMEM_register in Hlt;
    try (run; simpl; split; [reflexivity | discriminate]).
  destruct c; run; simpl; (split; [reflexivity | discriminate]).
Qed.

Lemma perform_value_refused (board : Board) (r : Request) (s : State) :
  initialized s = true ->
  value_refused (class s) r ->
  wire (snd (perform board r s)) = wire s /\
  err_code (snd (perform board r s)) <> EC_NO_ERR.
Proof.
  destruct s as [c init a e w]; simpl; intros -> Hr.
  destruct r; simpl in Hr; try contradiction.
  - destruct c; simpl in Hr;
      [ | pose proof (Hr _ eq_refl) | pose proof (Hr _ eq_refl) ];
      run; simpl; (split; [reflexivity | discriminate]).
  - destruct c; simpl in Hr;
      [ | pose proof (Hr _ eq_refl) as [? ?]
        | pose proof (Hr _ eq_refl) as [? ?] ];
      unfold max_RDAC_register in *;
      run; simpl; (split; [reflexivity | discriminate]).
Qed.

(** C6. Every public operation invoked on an uninitialized handle fails with
    [EC_NOT_INITIALIZED] (10), which the status functions return and the read
    functions leave in [err_code] while returning 0, and makes no call to the
    transport; and whenever one of the local checks of an operation fails
    (initialization, index bound, value bound) the operation returns with an
    error and the log of the transport is as it was; so does [initialize]
    when its selector is above 3. *)
Theorem validation_before_transport (board : Board) (r : Request) (s : State) :
  (initialized s = false ->
   perform board r s =
     (reply_on_error r EC_NOT_INITIALIZED,
      mkState (class s) false (dev_addr s) EC_NOT_INITIALIZED (wire s))) /\
  (initialized s = false \/ index_refused r \/ value_refused (class s) r ->
   wire (snd (perform board r s)) = wire s /\
   err_code (snd (perform board r s)) <> EC_NO_ERR) /\
  (forall AD_addr, 3 < AD_addr ->
   wire (snd (initialize AD_addr s)) = wire s /\
   err_code (snd (initialize AD_addr s)) <> EC_NO_ERR).
Proof.
  split; [|split].
  - intros H. rewrite (perform_uninitialized board r s H).
    unfold set_err_code. now rewrite H.
  - destruct (initialized s) eqn:Hinit.
    + intros [H | [H | H]]; [discriminate | |].
      * now apply perform_index_refused.
      * now apply perform_value_refused.
    + intros _. rewrite (perform_uninitialized board r s Hinit).
      simpl. split; [reflexivity | discriminate].
  - intros AD_addr H. rewrite (initialize_fails_above_3 s AD_addr H).
    simpl. split; [reflexivity | discriminate].
Qed.

Lemma validation_before_transport_witness :
  perform demo_board (Read_tolerance 0) (fresh AD5254) =
    (Float 0, mkState AD5254 false 0 10 []) /\
  wire (snd (perform demo_board (Write_EEMEM 16 7) (ready AD5254))) =
    [Wire.begin] /\
  err_code (snd (perform demo_board (Write_RDAC 0 64) (ready AD5253))) <> 0.
Proof.
  split; [|split].
  - apply (proj1 (validation_before_transport
                    demo_board (Read_tolerance 0) (fresh AD5254))).
    reflexivity.
  - apply (proj1 (proj2 (validation_before_transport
                           demo_board (Write_EEMEM 16 7) (ready AD5254)))).
    right; left. exists 16, 15. split; [reflexivity | lia].
  - apply (proj1 (proj2 (validation_before_transport
                           demo_board (Write_RDAC 0 64) (ready AD5253)))).
    right; right. intros max Hmax. inversion Hmax. lia.
Defined.

(** ** A failed initialize after a successful one *)

Lemma perform_all_uninitialized (board : Board) (rs : list Request) (s : State) :
  initialized s = false ->
  perform_all board rs s =
    (map (fun r => reply_on_error r EC_NOT_INITIALIZED) rs,
     match rs with
     | [] => s
     | _ :: _ => set_err_code EC_NOT_INITIALIZED s
     end).
Proof.
  revert s. induction rs as [|r rs IH]; intros s H; [reflexivity|].
  cbn [perform_all]. unfold bind at 1.
  rewrite (perform_uninitialized board r s H).
  unfold bind at 1. rewrite IH by (destruct s; exact H).
  destruct rs; reflexivity.
Qed.

(** C10. [initialize] with a selector above 3, on a handle that had been
    initialized, clears [initialized] and leaves the bus address as it was;
    every public operation that follows fails with [EC_NOT_INITIALIZED] (10)
    and touches neither the transport nor the address, until an [initialize]
    with a selector in [0, 3], which succeeds and sets [initialized] again. *)
Theorem failed_initialize_disables_handle
    (board : Board) (s : State) (AD_addr : Z) (rs : list Request) :
  initialized s = true ->
  3 < AD_addr ->
  let s1 := snd (initialize AD_addr s) in
  let s2 := snd (perform_all board rs s1) in
  initialized s1 = false /\
  dev_addr s1 = dev_addr s /\
  fst (perform_all board rs s1) =
    map (fun r => reply_on_error r EC_NOT_INITIALIZED) rs /\
  (rs <> [] -> err_code s2 = EC_NOT_INITIALIZED) /\
  initialized s2 = false /\
  dev_addr s2 = dev_addr s /\
  wire s2 = wire s /\
  (forall AD_addr', 0 <= AD_addr' <= 3 ->
     fst (initialize AD_addr' s2) = 0 /\
     initialized (snd (initialize AD_addr' s2)) = true /\
     dev_addr (snd (initialize AD_addr' s2)) = Z.lor 0x2C AD_addr').
Proof.
  intros Hinit Hbad s1 s2.
  assert (Hs1 : s1 = mkState (class s) false (dev_addr s)
                             EC_BAD_DEVICE_ADDR (wire s)).
  { unfold s1. now rewrite (initialize_fails_above_3 s AD_addr Hbad). }
  assert (Hrun := perform_all_uninitialized board rs s1).
  rewrite Hs1 in Hrun. specialize (Hrun eq_refl).
  subst s2. rewrite Hs1, Hrun. cbn [fst snd].
  split; [reflexivity|]. split; [reflexivity|]. split; [reflexivity|].
  split; [destruct rs; [congruence | reflexivity]|].
  split; [destruct rs; reflexivity|].
  split; [destruct rs; reflexivity|].
  split; [destruct rs; reflexivity|].
  intros AD_addr' H.
  rewrite (initialize_succeeds_up_to_3 _ AD_addr' H).
  split; [reflexivity|]. split; reflexivity.
Qed.

Lemma failed_initialize_disables_handle_witness :
  fst (perform_all demo_board [Write_RDAC 0 1; Read_RDAC 0; Reset_device]
         (snd (initialize 4 (ready AD5254)))) =
    [Byte 10; Byte 0; Byte 10] /\
  initialized (snd (initialize 3
    (snd (perform_all demo_board [Write_RDAC 0 1; Read_RDAC 0; Reset_device]
            (snd (initialize 4 (ready AD5254))))))) = true.
Proof.
  assert (H : 3 < 4) by lia.
  pose proof (failed_initialize_disables_handle demo_board (ready AD5254) 4
                [Write_RDAC 0 1; Read_RDAC 0; Reset_device] eq_refl H)
    as (_ & _ & Hreplies & _ & _ & _ & _ & Hagain).
  split.
  - exact Hreplies.
  - apply Hagain. lia.
Defined.

(** ** read_tolerance *)

Lemma land_pow2 (k x : Z) :
  0 <= k -> Z.land (2 ^ k) x = if Z.testbit x k then 2 ^ k else 0.
Proof.
  intros Hk. apply Z.bits_inj'. intros n Hn.
  rewrite Z.land_spec, Z.pow2_bits_eqb by assumption.
  destruct (Z.eqb_spec k n) as [->|Hne].
  - destruct (Z.testbit x n) eqn:Hx.
    + now rewrite Z.pow2_bits_eqb, Z.eqb_refl.
    + now rewrite Z.bits_0.
  - destruct (Z.testbit x k).
    + rewrite Z.pow2_bits_eqb by assumption.
      now destruct (Z.eqb_spec k n).
    + now rewrite Z.bits_0.
Qed.

Lemma land_pow2_eqb (k x : Z) :
  0 <= k -> (Z.land (2 ^ k) x =? 0) = negb (Z.testbit x k).
Proof.
  intros Hk. rewrite land_pow2 by assumption.
  destruct (Z.testbit x k); [|reflexivity].
  apply Z.eqb_neq. pose proof (Z.pow_pos_nonneg 2 k). lia.
Qed.

Lemma land_lnot_sign_mask (I : Z) :
  0 <= I < 256 -> Z.land (Z.lnot sign_mask) I = Z.land I 0x7F.
Proof.
  intros HI. apply Z.bits_inj'. intros n Hn.
  rewrite !Z.land_spec, Z.lnot_spec by assumption.
  change sign_mask with (2 ^ 7). change 0x7F with (Z.ones 7).
  rewrite Z.pow2_bits_eqb by lia.
  destruct (Z.eqb_spec 7 n) as [<-|Hne]; cbn [negb andb].
  - rewrite Z.ones_spec_high by lia. now rewrite andb_false_r.
  - destruct (Z.lt_ge_cases n 7).
    + rewrite Z.ones_spec_low by lia. now rewrite andb_true_r.
    + rewrite Z.ones_spec_high by lia. rewrite andb_false_r.
      rewrite <- (Z.mod_small I (2 ^ 8)) by (change (2 ^ 8) with 256; lia).
      apply Z.mod_pow2_bits_high. lia.
Qed.

Lemma index_cases (i : Z) :
  0 <= i <= 7 ->
  i = 0 \/ i = 1 \/ i = 2 \/ i = 3 \/ i = 4 \/ i = 5 \/ i = 6 \/ i = 7.
Proof. lia. Qed.

(** One turn of the loop adds the weight the specification gives to the
    bit. *)
Lemma add_fraction_bit_spec (F i : Z) (output : Q) :
  0 <= i <= 7 ->
  (add_fraction_bit F output i == output + spec_bit_weight F i)%Q.
Proof.
  intros Hi. unfold add_fraction_bit, spec_bit_weight.
  assert (Htest : (Z.land (Z.shiftr sign_mask i) F =? 0) =
                  negb (Z.testbit F (7 - i))).
  { rewrite <- land_pow2_eqb by lia. f_equal. f_equal.
    destruct (index_cases i Hi) as [-> | [-> | [-> | [-> | [-> | [-> | [-> | ->]]]]]]];
      reflexivity. }
  rewrite Htest.
  destruct (Z.testbit F (7 - i)); simpl negb; cbv iota.
  - apply Qplus_comp; [reflexivity|].
    destruct (index_cases i Hi) as [-> | [-> | [-> | [-> | [-> | [-> | [-> | ->]]]]]]];
      reflexivity.
  - now rewrite Qplus_0_r.
Qed.

Lemma fold_add_fraction_bit (F : Z) (l : list Z) (output : Q) :
  Forall (fun i => 0 <= i <= 7) l ->
  (fold_left (add_fraction_bit F) l output ==
   output + fold_right Qplus 0 (map (spec_bit_weight F) l))%Q.
Proof.
  intros Hl. revert output.
  induction Hl as [|i l Hi Hl IH]; intros output; simpl.
  - now rewrite Qplus_0_r.
  - rewrite IH, add_fraction_bit_spec by assumption.
    now rewrite Qplus_assoc.
Qed.

Lemma fraction_bits_in_range : Forall (fun i => 0 <= i <= 7) fraction_bits.
Proof. unfold fraction_bits. repeat constructor; lia. Qed.

(** The conversion of the integer byte is the signed integer of the
    specification. *)
Lemma signed_integer_spec (I : Z) :
  0 <= I < 256 ->
  ((if Z.land sign_mask I =? 0
    then inject_Z (Z.land (Z.lnot sign_mask) I)
    else inject_Z (Z.land (Z.lnot sign_mask) I) * (-1)) ==
   spec_signed_integer I)%Q.
Proof.
  intros HI. unfold spec_signed_integer.
  rewrite land_lnot_sign_mask by assumption.
  change sign_mask with (2 ^ 7). rewrite land_pow2_eqb by lia.
  destruct (Z.testbit I 7); simpl negb; cbv iota; [ring | reflexivity].
Qed.

(** The arithmetic of the driver computes the tolerance of the
    specification. *)
Lemma tolerance_value_spec (I F : Z) :
  0 <= I < 256 -> (tolerance_value I F == spec_tolerance I F)%Q.
Proof.
  intros HI. unfold tolerance_value, spec_tolerance, spec_fraction.
  rewrite fold_add_fraction_bit by apply fraction_bits_in_range.
  apply Qplus_comp; [|reflexivity].
  now apply signed_integer_spec.
Qed.

Lemma tolerance_instr_addr (RDAC : Z) :
  0 <= RDAC <= 3 ->
  u8 (Z.lor Tolerance_register (Z.shiftl RDAC 1)) =
  Z.lor 0x38 (Z.shiftl RDAC 1).
Proof.
  intros H.
  assert (RDAC = 0 \/ RDAC = 1 \/ RDAC = 2 \/ RDAC = 3)
    as [-> | [-> | [-> | ->]]] by lia; reflexivity.
Qed.

(** [read_tolerance] on an initialized handle and an index in [0, 3]: the
    two reads, each followed by the test of [err_code], then the
    arithmetic. *)
Lemma read_tolerance_reads (board : Board) (s : State) (RDAC : Z) :
  initialized s = true ->
  0 <= RDAC <= 3 ->
  read_tolerance board RDAC s =
    let instr_addr := Z.lor 0x38 (Z.shiftl RDAC 1) in
    let (tol_int_data, s1) := read_data_byte board (Z.lor instr_addr 0) s in
    if negb (err_code s1 =? 0) then (0%Q, s1)
    else
      let (tol_dec_data, s2) := read_data_byte board (Z.lor instr_addr 1) s1 in
      if negb (err_code s2 =? 0) then (0%Q, s2)
      else (tolerance_value tol_int_data tol_dec_data, s2).
Proof.
  intros Hinit HR. unfold read_tolerance.
  rewrite tolerance_instr_addr by assumption.
  unfold bind, field, assign, ret. rewrite Hinit. cbn [negb].
  unfold max_RDAC_register. destruct (Z.gtb_spec RDAC 3); [lia|].
  cbv zeta. unfold Tol_int, Tol_dec.
  destruct (read_data_byte board _ s) as [tol_int_data s1].
  destruct (negb (err_code s1 =? 0)); [reflexivity|].
  destruct (read_data_byte board _ s1) as [tol_dec_data s2].
  destruct (negb (err_code s2 =? 0)); reflexivity.
Qed.

(** What [read_tolerance] does with the two bytes its reads hand to it. On
    an initialized handle and for an index in [0, 3], when [read_data_byte]
    returns [I] for the integer register and [F] for the fraction register,
    each with no error, [read_tolerance] returns the signed integer of [I]
    (its low 7 bits, negated when bit 0x80 is set) plus the sum of
    [2^-(i+1)] over the set bits of [F], [i] counted from bit 7; the bytes
    0x05 and 0x80 give 5.5 and the bytes 0x85 and 0x00 give -5.0. *)
Lemma read_tolerance_decodes
    (board : Board) (s s1 s2 : State) (RDAC I F : Z) :
  initialized s = true ->
  0 <= RDAC <= 3 ->
  0 <= I < 256 ->
  0 <= F < 256 ->
  read_data_byte board (Z.lor (Z.lor 0x38 (Z.shiftl RDAC 1)) 0x00) s = (I, s1) ->
  err_code s1 = EC_NO_ERR ->
  read_data_byte board (Z.lor (Z.lor 0x38 (Z.shiftl RDAC 1)) 0x01) s1 = (F, s2) ->
  err_code s2 = EC_NO_ERR ->
  read_tolerance board RDAC s = (tolerance_value I F, s2) /\
  (tolerance_value I F == spec_tolerance I F)%Q /\
  (tolerance_value 0x05 0x80 == 11 # 2)%Q /\
  (tolerance_value 0x85 0x00 == - (5 # 1))%Q.
Proof.
  intros Hinit HR HI HF Hint He1 Hdec He2.
  split; [|split; [|split]].
  - rewrite read_tolerance_reads by assumption.
    cbv zeta. rewrite Hint, He1. cbn [negb Z.eqb EC_NO_ERR].
    rewrite Hdec, He2. reflexivity.
  - now apply tolerance_value_spec.
  - reflexivity.
  - reflexivity.
Qed.

(** C3, at an input where the driver departs from it. The device holds 0x05
    and 0x80 in the tolerance registers of wiper 0, which decode to 5.5;
    every call to the transport succeeds and [Wire.read] delivers the two
    bytes. But [read_data] returns the address of its local buffer, so the
    bytes do not reach [read_tolerance]: on a platform that makes that
    address null, it returns 0 and leaves no error. *)
Theorem read_tolerance_loses_the_bytes_read :
  let integer_read :=
    [Wire.begin;
     Wire.beginTransmission 0x2C; Wire.write 0x38; Wire.endTransmission;
     Wire.beginTransmission 0x2C; Wire.requestFrom 0x2C 1; Wire.available] in
  let fraction_read :=
    integer_read ++
    [Wire.read; Wire.endTransmission;
     Wire.beginTransmission 0x2C; Wire.write 0x39; Wire.endTransmission;
     Wire.beginTransmission 0x2C; Wire.requestFrom 0x2C 1; Wire.available] in
  read_answer demo_board integer_read = 0x05 /\
  read_answer demo_board fraction_read = 0x80 /\
  (tolerance_value 0x05 0x80 == 11 # 2)%Q /\
  read_tolerance demo_board 0 (ready AD5253) =
    (0%Q, mkState AD5253 true 0x2C EC_NO_ERR
            (fraction_read ++ [Wire.read; Wire.endTransmission])).
Proof.
  cbv zeta. split; [|split; [|split]].
  - reflexivity.
  - reflexivity.
  - reflexivity.
  - vm_compute. reflexivity.
Qed.

(** ** The float arithmetic of read_tolerance is exact *)

Lemma add_fraction_bit_scaled (F i k : Z) (output : Q) :
  0 <= i <= 7 ->
  (output == inject_Z k / 256)%Q ->
  exists k',
    k <= k' <= k + weight_256 i /\
    (add_fraction_bit F output i == inject_Z k' / 256)%Q.
Proof.
  intros Hi Hout. unfold add_fraction_bit, weight_256.
  destruct (Z.land (Z.shiftr sign_mask i) F =? 0).
  - exists k. split; [|assumption].
    pose proof (Z.pow_pos_nonneg 2 (7 - i)). lia.
  - exists (k + 2 ^ (7 - i)). split.
    + pose proof (Z.pow_pos_nonneg 2 (7 - i)). lia.
    + rewrite Hout, inject_Z_plus.
      destruct (index_cases i Hi) as [-> | [-> | [-> | [-> | [-> | [-> | [-> | ->]]]]]]];
        vm_compute (Z.shiftl _ _); vm_compute (2 ^ _)%Z; field.
Qed.

Lemma fold_add_fraction_bit_scaled (F : Z) (l : list Z) (k : Z) (output : Q) :
  Forall (fun i => 0 <= i <= 7) l ->
  (output == inject_Z k / 256)%Q ->
  exists k',
    k <= k' <= k + fold_right Z.add 0 (map weight_256 l) /\
    (fold_left (add_fraction_bit F) l output == inject_Z k' / 256)%Q.
Proof.
  intros Hl. revert k output.
  induction Hl as [|i l Hi Hl IH]; intros k output Hout; simpl.
  - exists k. split; [lia | assumption].
  - destruct (add_fraction_bit_scaled F i k output Hi Hout) as (k1 & Hk1 & H1).
    destruct (IH k1 _ H1) as (k2 & Hk2 & H2).
    exists k2. split; [lia | assumption].
Qed.

Lemma firstn_fraction_bits (n : nat) :
  Forall (fun i => 0 <= i <= 7) (firstn n fraction_bits) /\
  fold_right Z.add 0 (map weight_256 (firstn n fraction_bits)) <= 255.
Proof.
  unfold fraction_bits.
  do 8 (destruct n as [|n];
        [split; [repeat constructor; lia | vm_compute; discriminate]|]).
  rewrite firstn_all2 by (simpl; lia).
  split; [repeat constructor; lia | vm_compute; discriminate].
Qed.

(** Every value [output] takes in [read_tolerance] is a binary32 number, so
    that no operation of the source rounds: the values of the model over [Q]
    are the values of the [float]. *)
Lemma tolerance_output_binary32 (n : nat) (I F : Z) :
  0 <= I < 256 -> binary32 (tolerance_output_after n I F).
Proof.
  intros HI. unfold tolerance_output_after.
  rewrite land_lnot_sign_mask by assumption.
  change 0x7F with (Z.ones 7). rewrite Z.land_ones by lia.
  pose proof (Z.mod_pos_bound I (2 ^ 7) eq_refl) as Hm.
  change (2 ^ 7) with 128 in *.
  set (magnitude := I mod 128) in *.
  destruct (firstn_fraction_bits n) as [Hrange Hsum].
  assert (Hstart : exists z, -127 <= z <= 127 /\
            ((if Z.land sign_mask I =? 0 then inject_Z magnitude
              else inject_Z magnitude * (-1)) == inject_Z (256 * z) / 256)%Q).
  { destruct (Z.land sign_mask I =? 0).
    - exists magnitude. split; [lia|]. rewrite inject_Z_mult. field.
    - exists (- magnitude). split; [lia|].
      rewrite inject_Z_mult, inject_Z_opp. field. }
  destruct Hstart as (z & Hz & Hstart).
  destruct (fold_add_fraction_bit_scaled F _ _ _ Hrange Hstart)
    as (k & Hk & Hfold).
  exists k, (-8). split; [|split].
  - change (2 ^ 24) with 16777216. lia.
  - lia.
  - rewrite Hfold. reflexivity.
Qed.

Lemma tolerance_value_is_last_output (I F : Z) :
  tolerance_value I F = tolerance_output_after 8 I F.
Proof. reflexivity. Qed.

(** * Further properties of the driver *)

(** ** Proof steps for the reads *)

Ltac unfold_reads :=
  cbv beta iota zeta delta
    [ read_data_byte read_data read_into_buff
      Wire_requestFrom Wire_available Wire_read
      Wire_begin Wire_beginTransmission Wire_write Wire_endTransmission
      emit fail_with assign field bind ret
      set_initialized set_dev_addr set_err_code set_wire
      class initialized dev_addr err_code wire
      log_at_select log_at_request log_at_available log_at_read log_at_close
      left_with negb andb ];
  change (Z.to_nat 1) with 1%nat;
  cbv beta iota zeta delta
    [ read_into_buff repeat nth
      Wire_read emit assign field bind ret
      set_wire class initialized dev_addr err_code wire negb ];
  rewrite <- ?app_assoc; cbn [app].

Ltac split_tests :=
  repeat (match goal with
          | |- context [if ?c then _ else _] => destruct c eqn:?
          end; unfold_reads);
  try reflexivity; try congruence.

(** The whole of [read_data_byte], answer by answer. *)
Lemma read_data_byte_outcome (board : Board) (s : State) (register_addr : Z) :
  let e1 := u8 (endTransmission_answer board (log_at_select s register_addr)) in
  let n := u8 (requestFrom_answer board (log_at_request s register_addr)) in
  let avail := available_answer board (log_at_available s register_addr) in
  let b := u8 (read_answer board (log_at_read s register_addr)) in
  let closing := if avail =? 1 then log_at_close s register_addr
                 else log_at_read s register_addr in
  let e2 := u8 (endTransmission_answer board closing) in
  read_data_byte board register_addr s =
    if e1 >? 0 then
      (0, left_with s e1 (log_at_select s register_addr ++ [Wire.endTransmission]))
    else if negb (n =? 1) then
      (0, left_with s EC_BAD_READ_SIZE (log_at_available s register_addr))
    else if e2 >? 0 then
      (0, left_with s e2 (closing ++ [Wire.endTransmission]))
    else
      (found_through
         (returned_local board (closing ++ [Wire.endTransmission])
            (if avail =? 1 then Some [b] else None)),
       left_with s e2 (closing ++ [Wire.endTransmission])).
Proof.
  destruct s as [c init a e w]. unfold_reads. unfold found_through.
  split_tests;
    match goal with
    | |- context [returned_local ?b ?l ?h] =>
        destruct (returned_local b l h); reflexivity
    end.
Qed.

Lemma u8_is_byte (x : Z) : is_byte (u8 x).
Proof. unfold is_byte, u8. apply Z.mod_pos_bound. lia. Qed.

(** ** read_data_byte: the ways a read fails *)

(** A one-byte read fails in three ways, each leaving its own trace. When
    the write of the register address is not acknowledged, [read_data_byte]
    returns 0 with the error of the transport and requests nothing. When
    [Wire.requestFrom] does not report one byte, it returns 0 with
    [EC_BAD_READ_SIZE] (7), reads nothing and leaves the transmission it
    began without its [Wire.endTransmission]. When the closing
    [Wire.endTransmission] reports an error, it returns 0 with that error,
    whatever byte was read. *)
Theorem read_data_byte_failures (board : Board) (s : State) (register_addr : Z) :
  let e1 := u8 (endTransmission_answer board (log_at_select s register_addr)) in
  let n := u8 (requestFrom_answer board (log_at_request s register_addr)) in
  let e2 := u8 (endTransmission_answer board (log_at_close s register_addr)) in
  (0 < e1 ->
   read_data_byte board register_addr s =
     (0, left_with s e1
           (log_at_select s register_addr ++ [Wire.endTransmission]))) /\
  (e1 = 0 -> n <> 1 ->
   read_data_byte board register_addr s =
     (0, left_with s EC_BAD_READ_SIZE (log_at_available s register_addr))) /\
  (e1 = 0 -> n = 1 ->
   available_answer board (log_at_available s register_addr) = 1 ->
   0 < e2 ->
   read_data_byte board register_addr s =
     (0, left_with s e2
           (log_at_close s register_addr ++ [Wire.endTransmission]))).
Proof.
  intros e1 n e2. rewrite read_data_byte_outcome. cbv zeta.
  fold e1 n. split; [|split].
  - intros H. destruct (Z.gtb_spec e1 0); [reflexivity | lia].
  - intros -> Hn. cbn [Z.gtb Z.compare].
    destruct (Z.eqb_spec n 1); [contradiction | reflexivity].
  - intros -> -> -> H. cbn [Z.gtb Z.compare Z.eqb Pos.eqb negb]. fold e2.
    destruct (Z.gtb_spec e2 0); [reflexivity | lia].
Qed.

Lemma read_data_byte_failures_witness :
  read_data_byte silent_board 0x02 (ready AD5254) =
    (0, mkState AD5254 true 0x2C 2
          [Wire.begin; Wire.beginTransmission 0x2C; Wire.write 0x02;
           Wire.endTransmission]) /\
  read_data_byte
    (mkBoard (fun _ => 0) (fun _ => 0) (fun _ => 0) (fun _ => 0)
             null_for_local)
    0x02 (ready AD5254) =
    (0, mkState AD5254 true 0x2C 7
          [Wire.begin; Wire.beginTransmission 0x2C; Wire.write 0x02;
           Wire.endTransmission; Wire.beginTransmission 0x2C;
           Wire.requestFrom 0x2C 1]) /\
  read_data_byte
    (mkBoard (fun l => Z.of_nat (List.length l) / 8) (fun _ => 1) (fun _ => 1)
             (fun _ => 0x55) null_for_local)
    0x02 (ready AD5254) =
    (0, mkState AD5254 true 0x2C 1
          [Wire.begin; Wire.beginTransmission 0x2C; Wire.write 0x02;
           Wire.endTransmission; Wire.beginTransmission 0x2C;
           Wire.requestFrom 0x2C 1; Wire.available; Wire.read;
           Wire.endTransmission]).
Proof.
  split; [|split].
  - apply (proj1 (read_data_byte_failures silent_board (ready AD5254) 0x02)).
    vm_compute. reflexivity.
  - apply (proj1 (proj2 (read_data_byte_failures
              (mkBoard (fun _ => 0) (fun _ => 0) (fun _ => 0) (fun _ => 0)
             null_for_local)
              (ready AD5254) 0x02))).
    + vm_compute. reflexivity.
    + vm_compute. discriminate.
  - apply (proj2 (proj2 (read_data_byte_failures
              (mkBoard (fun l => Z.of_nat (List.length l) / 8) (fun _ => 1)
                       (fun _ => 1) (fun _ => 0x55) null_for_local)
              (ready AD5254) 0x02))).
    + vm_compute. reflexivity.
    + vm_compute. reflexivity.
    + vm_compute. reflexivity.
    + vm_compute. reflexivity.
Defined.

(** ** read_data_byte: when every step is acknowledged *)

(** When every step is acknowledged and one byte is available,
    [read_data_byte] makes exactly two transmissions to the device of the
    handle, stores the byte [Wire.read] gives in the local buffer of
    [read_data] and leaves no error. What it returns is what it finds
    through the address of that buffer once [read_data] has returned: 0 on
    a platform that makes the address null, whatever byte the device
    delivered. *)
Theorem read_data_byte_success (board : Board) (s : State) (register_addr : Z) :
  u8 (endTransmission_answer board (log_at_select s register_addr)) = 0 ->
  u8 (requestFrom_answer board (log_at_request s register_addr)) = 1 ->
  available_answer board (log_at_available s register_addr) = 1 ->
  u8 (endTransmission_answer board (log_at_close s register_addr)) = 0 ->
  let final := log_at_close s register_addr ++ [Wire.endTransmission] in
  let held := Some [u8 (read_answer board (log_at_read s register_addr))] in
  read_data_byte board register_addr s =
    (found_through (returned_local board final held),
     left_with s EC_NO_ERR final) /\
  (returned_local board final held = None ->
   read_data_byte board register_addr s = (0, left_with s EC_NO_ERR final)).
Proof.
  intros H1 Hn Ha H2 final held.
  assert (Hread : read_data_byte board register_addr s =
                  (found_through (returned_local board final held),
                   left_with s EC_NO_ERR final)).
  { rewrite read_data_byte_outcome. cbv zeta.
    rewrite H1, Hn, Ha. cbn [Z.gtb Z.compare Z.eqb Pos.eqb negb].
    rewrite H2. reflexivity. }
  split; [exact Hread|].
  intros Hnull. rewrite Hread, Hnull. reflexivity.
Qed.

Lemma read_data_byte_success_witness :
  read_answer demo_board
    [Wire.begin; Wire.beginTransmission 0x2C; Wire.write 0x3A;
     Wire.endTransmission; Wire.beginTransmission 0x2C;
     Wire.requestFrom 0x2C 1; Wire.available] = 0x85 /\
  read_data_byte demo_board 0x3A (ready AD5254) =
    (0, mkState AD5254 true 0x2C 0
          [Wire.begin; Wire.beginTransmission 0x2C; Wire.write 0x3A;
           Wire.endTransmission; Wire.beginTransmission 0x2C;
           Wire.requestFrom 0x2C 1; Wire.available; Wire.read;
           Wire.endTransmission]).
Proof.
  split; [reflexivity|].
  apply (proj2 (read_data_byte_success demo_board (ready AD5254) 0x3A
                  eq_refl eq_refl eq_refl eq_refl)).
  reflexivity.
Defined.

(** When the device delivered the byte ([Wire.requestFrom] reports 1) but
    [Wire.available] does not report 1, [Wire.read] is never called, and
    yet the read is reported as a success: [read_data_byte] leaves no
    error. What it returns is what it finds through the address of a buffer
    that was never written: 0 on a platform that makes the address null. *)
Theorem read_data_byte_unread_buffer
    (board : Board) (s : State) (register_addr : Z) :
  u8 (endTransmission_answer board (log_at_select s register_addr)) = 0 ->
  u8 (requestFrom_answer board (log_at_request s register_addr)) = 1 ->
  available_answer board (log_at_available s register_addr) <> 1 ->
  u8 (endTransmission_answer board (log_at_read s register_addr)) = 0 ->
  let final := log_at_read s register_addr ++ [Wire.endTransmission] in
  read_data_byte board register_addr s =
    (found_through (returned_local board final None),
     left_with s EC_NO_ERR final) /\
  (returned_local board final None = None ->
   read_data_byte board register_addr s = (0, left_with s EC_NO_ERR final)).
Proof.
  intros H1 Hn Ha H2 final.
  assert (Hread : read_data_byte board register_addr s =
                  (found_through (returned_local board final None),
                   left_with s EC_NO_ERR final)).
  { rewrite read_data_byte_outcome. cbv zeta.
    rewrite H1, Hn. cbn [Z.gtb Z.compare Z.eqb Pos.eqb negb].
    destruct (Z.eqb_spec (available_answer board
                            (log_at_available s register_addr)) 1);
      [contradiction|].
    rewrite H2. reflexivity. }
  split; [exact Hread|].
  intros Hnull. rewrite Hread, Hnull. reflexivity.
Qed.

Lemma read_data_byte_unread_buffer_witness :
  read_data_byte
    (mkBoard (fun _ => 0) (fun _ => 1) (fun _ => 0) (fun _ => 0x55)
             null_for_local)
    0x02 (ready AD5254) =
    (0, mkState AD5254 true 0x2C 0
          [Wire.begin; Wire.beginTransmission 0x2C; Wire.write 0x02;
           Wire.endTransmission; Wire.beginTransmission 0x2C;
           Wire.requestFrom 0x2C 1; Wire.available;
           Wire.endTransmission]).
Proof.
  apply (proj2 (read_data_byte_unread_buffer
           (mkBoard (fun _ => 0) (fun _ => 1) (fun _ => 0) (fun _ => 0x55)
                    null_for_local)
           (ready AD5254) 0x02
           ltac:(vm_compute; reflexivity) ltac:(vm_compute; reflexivity)
           ltac:(vm_compute; discriminate) ltac:(vm_compute; reflexivity))).
  reflexivity.
Defined.

(** ** What the read functions return *)

Lemma read_data_byte_zero_on_error
    (board : Board) (s : State) (register_addr : Z) :
  err_code (snd (read_data_byte board register_addr s)) <> EC_NO_ERR ->
  fst (read_data_byte board register_addr s) = 0.
Proof.
  rewrite read_data_byte_outcome. cbv zeta.
  destruct (_ >? 0); [reflexivity|].
  destruct (negb _); [reflexivity|].
  match goal with
  | |- context [?e >? 0] =>
      destruct (Z.gtb_spec e 0) as [Hpos|Hle]; [reflexivity|];
      cbn [fst snd left_with err_code]; intros Hne;
      match e with
      | u8 ?x => pose proof (u8_is_byte x) as Hb; unfold is_byte in Hb
      end;
      unfold EC_NO_ERR in Hne; lia
  end.
Qed.

(** On an initialized handle, [read_RDAC] with an index up to 3 is
    [read_data_byte] at [0x00 | index], and [read_EEMEM] with an index up to
    15 is [read_data_byte] at [0x20 | index]: the test of the error that
    follows the read never changes what is returned. *)
Theorem read_register_is_read_data_byte
    (board : Board) (s : State) (index : Z) :
  initialized s = true ->
  (index <= 3 ->
   read_RDAC board index s = read_data_byte board (Z.lor 0x00 index) s) /\
  (index <= 15 ->
   read_EEMEM board index s = read_data_byte board (Z.lor 0x20 index) s).
Proof.
  intros Hinit.
  split; intros H;
    [unfold read_RDAC, max_RDAC_register, RDAC_register
    |unfold read_EEMEM, max_EEMEM_register, EEMEM_register];
    unfold bind at 1; unfold field at 1; rewrite Hinit; cbn [negb];
    match goal with
    | |- context [index >? ?bound] =>
        destruct (Z.gtb_spec index bound); [lia|]
    end;
    cbv zeta; unfold bind, get_err_code, field, ret;
    match goal with
    | |- context [read_data_byte board ?a s] =>
        pose proof (read_data_byte_zero_on_error board s a) as Hzero;
        destruct (read_data_byte board a s) as [rv s'];
        cbn [fst snd] in Hzero;
        destruct (Z.eqb_spec (err_code s') 0) as [Hok|Herr]; cbn [negb];
        [reflexivity | now rewrite (Hzero Herr)]
    end.
Qed.

Lemma read_register_is_read_data_byte_witness :
  read_RDAC demo_board 3 (ready AD5254) =
    read_data_byte demo_board 0x03 (ready AD5254) /\
  read_EEMEM demo_board 15 (ready AD5254) =
    read_data_byte demo_board 0x2F (ready AD5254).
Proof.
  split.
  - apply (proj1 (read_register_is_read_data_byte
                    demo_board (ready AD5254) 3 eq_refl)). lia.
  - apply (proj2 (read_register_is_read_data_byte
                    demo_board (ready AD5254) 15 eq_refl)). lia.
Defined.

(** Whenever an operation on the device leaves an error in [err_code], the
    functions that return a status have returned that error, and the
    functions that return data have returned 0. *)
Theorem reply_when_error (board : Board) (r : Request) (s : State) :
  err_code (snd (perform board r s)) <> EC_NO_ERR ->
  fst (perform board r s) =
    reply_on_error r (err_code (snd (perform board r s))).
Proof.
  pose proof (status_is_err_code board r s) as Hstatus.
  destruct r; try (intros _; exact Hstatus); clear Hstatus;
    unfold perform, reply_byte, reply_float,
      read_RDAC, read_EEMEM, read_tolerance, get_err_code;
    unfold bind, field, assign, ret;
    destruct (initialized s); cbn [negb]; try reflexivity;
    (destruct (_ >? _); [reflexivity|]); cbv zeta.
  - destruct (read_data_byte board _ s) as [rv s'].
    destruct (Z.eqb_spec (err_code s') 0);
      cbn [negb fst snd reply_on_error]; unfold EC_NO_ERR;
      [intros Hne; contradiction | reflexivity].
  - destruct (read_data_byte board _ s) as [rv s'].
    destruct (Z.eqb_spec (err_code s') 0);
      cbn [negb fst snd reply_on_error]; unfold EC_NO_ERR;
      [intros Hne; contradiction | reflexivity].
  - destruct (read_data_byte board _ s) as [tol_int_data s1].
    destruct (Z.eqb_spec (err_code s1) 0); cbn [negb]; [|reflexivity].
    destruct (read_data_byte board _ s1) as [tol_dec_data s2].
    destruct (Z.eqb_spec (err_code s2) 0);
      cbn [negb fst snd reply_on_error]; unfold EC_NO_ERR;
      [intros Hne; contradiction | reflexivity].
Qed.

Lemma reply_when_error_witness :
  fst (perform silent_board (Read_RDAC 1) (ready AD5254)) = Byte 0 /\
  fst (perform silent_board (Store_RDAC 1) (ready AD5254)) = Byte 2.
Proof.
  split.
  - apply (reply_when_error silent_board (Read_RDAC 1) (ready AD5254)).
    vm_compute. discriminate.
  - apply (reply_when_error silent_board (Store_RDAC 1) (ready AD5254)).
    vm_compute. discriminate.
Defined.

(** ** read_data for any length *)






(** ** What the operations leave alone *)

Lemma same_device_refl (s : State) (e : Z) : same_device s (set_err_code e s).
Proof.
  unfold same_device. cbn. repeat split.
  exists []. split; [now rewrite app_nil_r | constructor].
Qed.

Lemma same_device_trans (s1 s2 s3 : State) :
  same_device s1 s2 -> same_device s2 s3 -> same_device s1 s3.
Proof.
  intros (Hc & Hi & Ha & l & Hw & Hl) (Hc' & Hi' & Ha' & l' & Hw' & Hl').
  unfold same_device. repeat split; try congruence.
  exists (l ++ l'). split.
  - now rewrite Hw', Hw, app_assoc.
  - apply Forall_app. split; [assumption | now rewrite <- Ha].
Qed.

Ltac frame_done :=
  unfold same_device;
  cbn [class initialized dev_addr err_code wire fst snd left_with
       set_err_code set_wire set_initialized set_dev_addr];
  split; [reflexivity|]; split; [reflexivity|]; split; [reflexivity|];
  eexists; split;
  [ unfold log_at_select, log_at_request, log_at_available, log_at_read,
      log_at_close;
    cbn [wire dev_addr]; rewrite <- ?app_assoc; cbn [app];
    first [reflexivity | symmetry; apply app_nil_r]
  | repeat constructor ].

Lemma read_data_byte_same_device
    (board : Board) (s : State) (register_addr : Z) :
  same_device s (snd (read_data_byte board register_addr s)).
Proof.
  rewrite read_data_byte_outcome. cbv zeta.
  destruct (_ >? 0); [frame_done|].
  destruct (negb _); [frame_done|].
  destruct (_ =? 1); destruct (_ >? 0); frame_done.
Qed.

Lemma perform_frame (board : Board) (r : Request) (s : State) :
  same_device s (snd (perform board r s)).
Proof.
  destruct r;
    try (destruct s as [c [] a e w]; destruct c; run; frame_done).
  - (* read_RDAC *)
    unfold perform, reply_byte, read_RDAC, get_err_code.
    unfold bind, field, assign, ret.
    destruct (initialized s); cbn [negb]; [|apply same_device_refl].
    destruct (_ >? _); [apply same_device_refl|]. cbv zeta.
    pose proof (read_data_byte_same_device board s (Z.lor RDAC_register RDAC)).
    destruct (read_data_byte board _ s) as [rv s'].
    destruct (negb _); assumption.
  - (* read_EEMEM *)
    unfold perform, reply_byte, read_EEMEM, get_err_code.
    unfold bind, field, assign, ret.
    destruct (initialized s); cbn [negb]; [|apply same_device_refl].
    destruct (_ >? _); [apply same_device_refl|]. cbv zeta.
    pose proof (read_data_byte_same_device board s (Z.lor EEMEM_register reg)).
    destruct (read_data_byte board _ s) as [rv s'].
    destruct (negb _); assumption.
  - (* read_tolerance *)
    unfold perform, reply_float, read_tolerance.
    unfold bind, field, assign, ret.
    destruct (initialized s); cbn [negb]; [|apply same_device_refl].
    destruct (_ >? _); [apply same_device_refl|]. cbv zeta.
    match goal with
    | |- context [read_data_byte board ?a s] =>
        pose proof (read_data_byte_same_device board s a) as H1;
        destruct (read_data_byte board a s) as [tol_int_data s1]
    end.
    cbn [snd] in H1. destruct (negb _); [assumption|].
    match goal with
    | |- context [read_data_byte board ?a s1] =>
        pose proof (read_data_byte_same_device board s1 a) as H2;
        destruct (read_data_byte board a s1) as [tol_dec_data s2]
    end.
    cbn [snd] in H2. pose proof (same_device_trans _ _ _ H1 H2).
    destruct (negb _); assumption.
Qed.

(** No operation on the device changes the class of the handle, its
    [initialized] flag or its bus address; each one only appends to the log
    of the transport, never calls [Wire.begin], and never names another bus
    address than the one of the handle. *)
Theorem perform_same_device (board : Board) (r : Request) (s : State) :
  class (snd (perform board r s)) = class s /\
  initialized (snd (perform board r s)) = initialized s /\
  dev_addr (snd (perform board r s)) = dev_addr s /\
  exists l,
    wire (snd (perform board r s)) = wire s ++ l /\
    Forall (addressed_to (dev_addr s)) l.
Proof. exact (perform_frame board r s). Qed.

(** ** Which error a refused request gets *)

(** On an initialized handle, a request whose index lies beyond its bound
    fails with [EC_BAD_REGISTER] (5), leaving the handle otherwise as it
    was; the one exception is [write_EEMEM] on the base class, which asks
    for the maximum first. *)
Theorem index_refused_is_bad_register
    (board : Board) (r : Request) (s : State) :
  initialized s = true ->
  index_refused r ->
  (forall reg value, r = Write_EEMEM reg value -> class s <> AD525x) ->
  perform board r s =
    (reply_on_error r EC_BAD_REGISTER, set_err_code EC_BAD_REGISTER s).
Proof.
  destruct s as [c init a e w]; cbn [initialized class].
  intros -> (i & bound & Hr & Hlt) Hclass.
  destruct r; simpl in Hr; inversion Hr; subst i bound;
    unfold max_RDAC_register, max_EEMEM_register in Hlt;
    try (run; reflexivity).
  destruct c; [exfalso; now apply (Hclass reg value) | |]; run; reflexivity.
Qed.

Lemma index_refused_is_bad_register_witness :
  perform demo_board (Read_EEMEM 16) (ready AD525x) =
    (Byte 0, mkState AD525x true 0x2C 5 [Wire.begin]) /\
  perform demo_board (Write_EEMEM 16 255) (ready AD5253) =
    (Byte 5, mkState AD5253 true 0x2C 5 [Wire.begin]).
Proof.
  split.
  - apply (index_refused_is_bad_register demo_board (Read_EEMEM 16)
             (ready AD525x) eq_refl).
    + exists 16, 15. split; [reflexivity | lia].
    + intros reg value H. discriminate H.
  - apply (index_refused_is_bad_register demo_board (Write_EEMEM 16 255)
             (ready AD5253) eq_refl).
    + exists 16, 15. split; [reflexivity | lia].
    + intros reg value H. discriminate.
Defined.

(** ** write_EEMEM, case by case *)

(** On an initialized handle of a concrete variant, [write_EEMEM] goes one
    of three ways. A register up to 3 with a value below the maximum is
    refused with [EC_BAD_WIPER_SETTING]; otherwise a register above 15 is
    refused with [EC_BAD_REGISTER]; otherwise [(0x20 | reg, value)] is
    written, which covers every value in the registers 4 to 15 and the
    values from the maximum up in the registers 0 to 3. *)
Theorem write_EEMEM_cases (board : Board) (s : State) (max reg value : Z) :
  initialized s = true ->
  variant_max (class s) = Some max ->
  (reg <= 3 -> value < max ->
   write_EEMEM board reg value s =
     (EC_BAD_WIPER_SETTING, set_err_code EC_BAD_WIPER_SETTING s)) /\
  (15 < reg ->
   write_EEMEM board reg value s =
     (EC_BAD_REGISTER, set_err_code EC_BAD_REGISTER s)) /\
  (reg <= 15 -> 3 < reg \/ max <= value ->
   write_EEMEM board reg value s =
     after_transaction board s [Z.lor 0x20 reg; value]).
Proof.
  destruct s as [c init a e w]; simpl; intros -> Hmax.
  destruct c; inversion Hmax; subst max; (split; [|split]); intros;
    run; rewrite ?app_transaction2; reflexivity.
Qed.

Lemma write_EEMEM_cases_witness :
  write_EEMEM demo_board 0 254 (ready AD5254) =
    (6, mkState AD5254 true 0x2C 6 [Wire.begin]) /\
  write_EEMEM demo_board 16 255 (ready AD5254) =
    (5, mkState AD5254 true 0x2C 5 [Wire.begin]) /\
  write_EEMEM demo_board 15 7 (ready AD5254) =
    (0, mkState AD5254 true 0x2C 0
          [Wire.begin; Wire.beginTransmission 0x2C; Wire.write 0x2F;
           Wire.write 7; Wire.endTransmission]).
Proof.
  split; [|split].
  - apply (proj1 (write_EEMEM_cases demo_board (ready AD5254) 255 0 254
                    eq_refl eq_refl)); lia.
  - apply (proj1 (proj2 (write_EEMEM_cases demo_board (ready AD5254) 255 16 255
                           eq_refl eq_refl))); lia.
  - apply (proj2 (proj2 (write_EEMEM_cases demo_board (ready AD5254) 255 15 7
                           eq_refl eq_refl))); lia.
Defined.

(** ** The base class *)

(** On an initialized handle of the base class, [write_EEMEM] returns
    [EC_NOT_IMPLEMENTED] (9) for every register and every value, a register
    above 15 included, and makes no call to the transport. *)
Theorem write_EEMEM_base_not_implemented
    (board : Board) (s : State) (reg value : Z) :
  class s = AD525x ->
  initialized s = true ->
  write_EEMEM board reg value s =
    (EC_NOT_IMPLEMENTED, set_err_code EC_NOT_IMPLEMENTED s).
Proof.
  destruct s as [c init a e w]; simpl; intros -> ->. reflexivity.
Qed.

Lemma write_EEMEM_base_not_implemented_witness :
  write_EEMEM demo_board 16 7 (ready AD525x) =
    (9, mkState AD525x true 0x2C 9 [Wire.begin]).
Proof.
  apply (write_EEMEM_base_not_implemented demo_board (ready AD525x) 16 7
           eq_refl eq_refl).
Defined.

Lemma read_data_byte_with_class
    (board : Board) (c : Class) (s : State) (register_addr : Z) :
  read_data_byte board register_addr (with_class c s) =
    (fst (read_data_byte board register_addr s),
     with_class c (snd (read_data_byte board register_addr s))).
Proof.
  rewrite !read_data_byte_outcome. cbv zeta.
  destruct s as [c0 init a e w].
  unfold log_at_select, log_at_request, log_at_available, log_at_read,
    log_at_close, with_class, left_with.
  cbn [class initialized dev_addr err_code wire].
  destruct (_ >? 0); [reflexivity|].
  destruct (negb _); [reflexivity|].
  destruct (_ =? 1); destruct (_ >? 0); reflexivity.
Qed.

(** The reads and the commands do not depend on the class of the handle:
    on the base class they return what they return on a concrete variant
    and leave the same handle, class apart. Only the two writes ask for the
    maximum. *)
Theorem perform_any_class
    (board : Board) (r : Request) (c : Class) (s : State) :
  is_write r = false ->
  perform board r (with_class c s) =
    (fst (perform board r s), with_class c (snd (perform board r s))).
Proof.
  intros Hr.
  destruct r; try discriminate Hr;
    try (destruct s as [c0 [] a e w]; run; reflexivity).
  - unfold perform, reply_byte, read_RDAC, get_err_code.
    unfold bind, field, assign, ret.
    cbn [with_class initialized].
    destruct (initialized s); cbn [negb]; [|destruct s; reflexivity].
    destruct (_ >? _); [destruct s; reflexivity|]. cbv zeta.
    rewrite read_data_byte_with_class.
    destruct (read_data_byte board _ s) as [rv s']. cbn [fst snd].
    cbn [with_class err_code]. destruct (negb _); reflexivity.
  - unfold perform, reply_byte, read_EEMEM, get_err_code.
    unfold bind, field, assign, ret.
    cbn [with_class initialized].
    destruct (initialized s); cbn [negb]; [|destruct s; reflexivity].
    destruct (_ >? _); [destruct s; reflexivity|]. cbv zeta.
    rewrite read_data_byte_with_class.
    destruct (read_data_byte board _ s) as [rv s']. cbn [fst snd].
    cbn [with_class err_code]. destruct (negb _); reflexivity.
  - unfold perform, reply_float, read_tolerance.
    unfold bind, field, assign, ret.
    cbn [with_class initialized].
    destruct (initialized s); cbn [negb]; [|destruct s; reflexivity].
    destruct (_ >? _); [destruct s; reflexivity|]. cbv zeta.
    rewrite read_data_byte_with_class.
    destruct (read_data_byte board _ s) as [tol_int_data s1]. cbn [fst snd].
    cbn [with_class err_code]. destruct (negb _); [reflexivity|].
    fold (with_class c s1). rewrite read_data_byte_with_class.
    destruct (read_data_byte board _ s1) as [tol_dec_data s2]. cbn [fst snd].
    cbn [with_class err_code]. destruct (negb _); reflexivity.
Qed.

Lemma perform_any_class_witness :
  perform demo_board (Read_tolerance 1) (with_class AD525x (ready AD5254)) =
    (fst (perform demo_board (Read_tolerance 1) (ready AD5254)),
     with_class AD525x
       (snd (perform demo_board (Read_tolerance 1) (ready AD5254)))).
Proof.
  apply (perform_any_class demo_board (Read_tolerance 1) AD525x
           (ready AD5254) eq_refl).
Defined.

(** ** Instruction bytes *)

Lemma read_data_byte_starts (board : Board) (s : State) (register_addr : Z) :
  exists rest,
    wire (snd (read_data_byte board register_addr s)) =
      wire s ++ Wire.beginTransmission (dev_addr s)
             :: Wire.write register_addr :: rest.
Proof.
  rewrite read_data_byte_outcome. cbv zeta.
  unfold log_at_select, log_at_request, log_at_available, log_at_read,
    log_at_close.
  destruct (_ >? 0);
    [|destruct (negb _); [|destruct (_ =? 1); destruct (_ >? 0)]];
    cbn [snd left_with wire]; rewrite <- ?app_assoc; cbn [app];
    eexists; reflexivity.
Qed.

(** An operation on the device either makes no call to the transport, or
    begins by a transmission to the bus address of the handle in which the
    first byte written is the instruction byte of the operation. *)
Theorem first_byte_is_instruction (board : Board) (r : Request) (s : State) :
  wire (snd (perform board r s)) = wire s \/
  exists rest,
    wire (snd (perform board r s)) =
      wire s ++ Wire.beginTransmission (dev_addr s)
             :: Wire.write (instruction r) :: rest.
Proof.
  destruct r;
    try (destruct s as [c [] a e w]; destruct c; run;
         cbn [snd wire instruction];
         first [ left; reflexivity
               | right; rewrite <- ?app_assoc; cbn [app];
                 eexists; reflexivity ]).
  - unfold perform, reply_byte, read_RDAC, get_err_code.
    unfold bind, field, assign, ret.
    destruct (initialized s); cbn [negb]; [|left; reflexivity].
    destruct (_ >? _); [left; reflexivity|]. cbv zeta. right.
    destruct (read_data_byte_starts board s (Z.lor RDAC_register RDAC))
      as [rest Hrest].
    destruct (read_data_byte board _ s) as [rv s'].
    exists rest. destruct (negb _); exact Hrest.
  - unfold perform, reply_byte, read_EEMEM, get_err_code.
    unfold bind, field, assign, ret.
    destruct (initialized s); cbn [negb]; [|left; reflexivity].
    destruct (_ >? _); [left; reflexivity|]. cbv zeta. right.
    destruct (read_data_byte_starts board s (Z.lor EEMEM_register reg))
      as [rest Hrest].
    destruct (read_data_byte board _ s) as [rv s'].
    exists rest. destruct (negb _); exact Hrest.
  - unfold perform, reply_float, read_tolerance.
    unfold bind, field, assign, ret.
    destruct (initialized s); cbn [negb]; [|left; reflexivity].
    destruct (_ >? _); [left; reflexivity|]. cbv zeta. right.
    cbn [instruction].
    match goal with
    | |- context [read_data_byte board ?a s] =>
        destruct (read_data_byte_starts board s a) as [rest1 H1];
        destruct (read_data_byte board a s) as [tol_int_data s1]
    end.
    cbn [snd] in H1. destruct (negb _); [exists rest1; exact H1|].
    match goal with
    | |- context [read_data_byte board ?a s1] =>
        destruct (read_data_byte_starts board s1 a) as [rest2 H2];
        destruct (read_data_byte board a s1) as [tol_dec_data s2]
    end.
    cbn [snd] in H2.
    eexists. destruct (negb _); cbn [snd]; rewrite H2, H1;
      rewrite <- app_assoc; cbn [app]; reflexivity.
Qed.

(** Every in-bounds value of a natural number below [n], one by one. *)
Tactic Notation "each_index" constr(i) integer(n) :=
  let k := fresh "k" in
  let Hk := fresh "Hk" in
  remember (Z.to_nat i) as k eqn:Hk;
  assert (i = Z.of_nat k) by lia; subst i; clear Hk;
  do n (destruct k as [|k]; [vm_compute; reflexivity|]);
  exfalso; lia.

(** The instruction byte of a request within its bounds is a byte, and the
    device can read it back: it decodes to the register or command the
    request names. Hence two requests with the same instruction byte name
    the same register or the same command. *)
Theorem instruction_decodes (r : Request) :
  index_in_bounds r ->
  is_byte (instruction r) /\
  decode_instruction (instruction r) = Some (target r) /\
  (forall r', index_in_bounds r' ->
              instruction r' = instruction r -> target r' = target r).
Proof.
  assert (Hdecode : forall q, index_in_bounds q ->
            decode_instruction (instruction q) = Some (target q)).
  { intros q Hq. destruct q; unfold index_in_bounds in Hq; cbn in Hq;
      unfold max_RDAC_register, max_EEMEM_register in Hq;
      try reflexivity;
      match goal with
      | H : 0 <= ?i <= 3 |- _ => each_index i 4
      | H : 0 <= ?i <= 15 |- _ => each_index i 16
      end. }
  assert (Hbyte : forall q, index_in_bounds q ->
            (0 <=? instruction q) = true /\ (instruction q <? 256) = true).
  { intros q Hq. destruct q; unfold index_in_bounds in Hq; cbn in Hq;
      unfold max_RDAC_register, max_EEMEM_register in Hq;
      try (split; reflexivity);
      match goal with
      | H : 0 <= ?i <= 3 |- _ =>
          split; [each_index i 4 | each_index i 4]
      | H : 0 <= ?i <= 15 |- _ =>
          split; [each_index i 16 | each_index i 16]
      end. }
  intros Hr. split; [|split].
  - destruct (Hbyte r Hr) as [H0 H1]. unfold is_byte. lia.
  - now apply Hdecode.
  - intros r' Hr' Heq.
    pose proof (Hdecode r' Hr') as H'. rewrite Heq, (Hdecode r Hr) in H'.
    now inversion H'.
Qed.

Lemma instruction_decodes_witness :
  decode_instruction (instruction (Write_EEMEM 9 200)) = Some (Read_EEMEM 9) /\
  decode_instruction (instruction (Increment_RDAC_6dB 3)) =
    Some (Increment_RDAC_6dB 3).
Proof.
  split.
  - apply (proj1 (proj2 (instruction_decodes (Write_EEMEM 9 200)
                           ltac:(unfold index_in_bounds; simpl;
                                 unfold max_EEMEM_register; lia)))).
  - apply (proj1 (proj2 (instruction_decodes (Increment_RDAC_6dB 3)
                           ltac:(unfold index_in_bounds; simpl;
                                 unfold max_RDAC_register; lia)))).
Defined.

(** ** After a successful initialize *)

Lemma perform_all_same_device
    (board : Board) (rs : list Request) (s : State) :
  same_device s (snd (perform_all board rs s)).
Proof.
  revert s. induction rs as [|r rs IH]; intros s.
  - cbn. replace s with (set_err_code (err_code s) s) at 2 by now destruct s.
    apply same_device_refl.
  - cbn [perform_all]. unfold bind at 1.
    pose proof (perform_frame board r s) as H1.
    destruct (perform board r s) as [a s1]. cbn [snd] in H1.
    unfold bind at 1. specialize (IH s1).
    destruct (perform_all board rs s1) as [rest s2]. cbn [snd ret] in *.
    eapply same_device_trans; eassumption.
Qed.

(** The selectors 0 to 3 give the four bus addresses [0x2C] to [0x2F], one
    each, and [initialize] replaces the address of an earlier [initialize].
    Whatever operations follow a successful [initialize], the handle stays
    initialized at that address and every call they make to the transport
    names that address. *)
Theorem initialize_then_operations
    (board : Board) (s : State) (AD_addr : Z) (rs : list Request) :
  0 <= AD_addr <= 3 ->
  let s1 := snd (initialize AD_addr s) in
  let s2 := snd (perform_all board rs s1) in
  dev_addr s1 = 0x2C + AD_addr /\
  Z.land (dev_addr s1) 0x03 = AD_addr /\
  (forall AD_addr', 0 <= AD_addr' <= 3 ->
     dev_addr (snd (initialize AD_addr' s1)) = 0x2C + AD_addr') /\
  initialized s2 = true /\
  dev_addr s2 = 0x2C + AD_addr /\
  exists l,
    wire s2 = wire s ++ Wire.begin :: l /\
    Forall (addressed_to (0x2C + AD_addr)) l.
Proof.
  intros H s1 s2.
  assert (Hlor : forall x, 0 <= x <= 3 ->
            Z.lor 0x2C x = 0x2C + x /\ Z.land (0x2C + x) 0x03 = x).
  { intros x Hx.
    assert (x = 0 \/ x = 1 \/ x = 2 \/ x = 3) as [-> | [-> | [-> | ->]]] by lia;
      split; reflexivity. }
  assert (Hs1 : s1 = mkState (class s) true (0x2C + AD_addr) (err_code s)
                             (wire s ++ [Wire.begin])).
  { unfold s1. rewrite (initialize_succeeds_up_to_3 s AD_addr H).
    cbn [snd]. now rewrite (proj1 (Hlor AD_addr H)). }
  pose proof (perform_all_same_device board rs s1) as Hframe.
  fold s2 in Hframe. destruct Hframe as (_ & Hi & Ha & l & Hw & Hl).
  rewrite Hs1 in Hi, Ha, Hw, Hl. cbn [initialized dev_addr wire] in *.
  split; [now rewrite Hs1|].
  split; [rewrite Hs1; cbn [dev_addr]; apply (Hlor AD_addr H)|].
  split.
  { intros AD_addr' H'. rewrite (initialize_succeeds_up_to_3 s1 AD_addr' H').
    cbn [snd dev_addr]. apply (Hlor AD_addr' H'). }
  split; [assumption|]. split; [assumption|].
  exists l. split; [|assumption].
  rewrite Hw, <- app_assoc. reflexivity.
Qed.

Lemma initialize_then_operations_witness :
  dev_addr (snd (perform_all demo_board [Write_RDAC 1 7; Read_tolerance 0]
                   (snd (initialize 3 (fresh AD5254))))) = 0x2F.
Proof.
  assert (H : 0 <= 3 <= 3) by lia.
  pose proof (initialize_then_operations demo_board (fresh AD5254) 3
                [Write_RDAC 1 7; Read_tolerance 0] H)
    as (_ & _ & _ & _ & Haddr & _).
  exact Haddr.
Defined.

(** ** The tolerance in closed form *)

Lemma spec_fraction_is_over_256 (F : Z) :
  0 <= F < 256 -> (spec_fraction F == inject_Z F / 256)%Q.
Proof. intros H. each_index F 256. Qed.

Lemma spec_signed_integer_of_byte (I : Z) :
  0 <= I < 256 ->
  (spec_signed_integer I ==
   inject_Z (if I <? 128 then I else 128 - I))%Q.
Proof. intros H. each_index I 256. Qed.

(** For bytes [I] and [F] the arithmetic of [read_tolerance] gives
    [I + F/256] when [I] is below 128 and [-(I - 128) + F/256] otherwise:
    the fraction byte counts in 256ths and is added, not subtracted, when
    the sign bit is set, so that [I = 0x85, F = 0x80] is -4.5. The value
    lies between -127 and 128. *)
Theorem tolerance_value_closed_form (I F : Z) :
  0 <= I < 256 ->
  0 <= F < 256 ->
  (tolerance_value I F ==
   inject_Z (if I <? 128 then I else 128 - I) + inject_Z F / 256)%Q /\
  (- (127 # 1) <= tolerance_value I F)%Q /\
  (tolerance_value I F < 128 # 1)%Q.
Proof.
  intros HI HF.
  assert (Hform : (tolerance_value I F ==
            inject_Z (if I <? 128 then I else 128 - I) + inject_Z F / 256)%Q).
  { rewrite tolerance_value_spec by assumption. unfold spec_tolerance.
    rewrite spec_fraction_is_over_256, spec_signed_integer_of_byte
      by assumption.
    reflexivity. }
  split; [exact Hform|].
  rewrite Hform.
  set (z := if I <? 128 then I else 128 - I).
  assert (Hz : -127 <= z <= 127) by (unfold z; destruct (Z.ltb_spec I 128); lia).
  assert (Heq : (inject_Z z + inject_Z F / 256 ==
                 inject_Z (256 * z + F) / 256)%Q).
  { rewrite inject_Z_plus, inject_Z_mult. field. }
  rewrite Heq.
  assert (Hk : -32512 <= 256 * z + F < 32768) by lia.
  revert Hk. generalize (256 * z + F). intros k Hk.
  unfold Qdiv, Qle, Qlt, Qmult, Qinv, inject_Z. cbn.
  split; lia.
Qed.

Lemma tolerance_value_closed_form_witness :
  (tolerance_value 0x85 0x80 == inject_Z (-5) + inject_Z 128 / 256)%Q.
Proof.
  assert (HI : 0 <= 0x85 < 256) by lia.
  assert (HF : 0 <= 0x80 < 256) by lia.
  exact (proj1 (tolerance_value_closed_form 0x85 0x80 HI HF)).
Defined.

(** ** read_tolerance: the ways it fails *)

(** On an initialized handle and for an index in [0, 3]: when the read of
    the integer register leaves an error, [read_tolerance] returns 0 and
    the fraction register is never addressed; when the read of the
    fraction register leaves an error, [read_tolerance] returns 0, whatever
    the integer byte was. *)
Theorem read_tolerance_failures (board : Board) (s : State) (RDAC : Z) :
  initialized s = true ->
  0 <= RDAC <= 3 ->
  let s1 := snd (read_data_byte board (0x38 + 2 * RDAC) s) in
  let s2 := snd (read_data_byte board (0x39 + 2 * RDAC) s1) in
  (err_code s1 <> EC_NO_ERR -> read_tolerance board RDAC s = (0%Q, s1)) /\
  (err_code s1 = EC_NO_ERR -> err_code s2 <> EC_NO_ERR ->
   read_tolerance board RDAC s = (0%Q, s2)).
Proof.
  intros Hinit HR s1 s2.
  assert (Haddr : Z.lor (Z.lor 0x38 (Z.shiftl RDAC 1)) 0 = 0x38 + 2 * RDAC /\
                  Z.lor (Z.lor 0x38 (Z.shiftl RDAC 1)) 1 = 0x39 + 2 * RDAC).
  { assert (RDAC = 0 \/ RDAC = 1 \/ RDAC = 2 \/ RDAC = 3)
      as [-> | [-> | [-> | ->]]] by lia; split; reflexivity. }
  rewrite read_tolerance_reads by assumption. cbv zeta.
  rewrite (proj1 Haddr), (proj2 Haddr).
  subst s2 s1.
  destruct (read_data_byte board (0x38 + 2 * RDAC) s) as [tol_int_data s1].
  cbn [snd].
  destruct (read_data_byte board (0x39 + 2 * RDAC) s1) as [tol_dec_data s2].
  cbn [snd]. unfold EC_NO_ERR.
  split.
  - intros H. destruct (Z.eqb_spec (err_code s1) 0); [contradiction|].
    reflexivity.
  - intros H1 H2. rewrite H1. cbn [Z.eqb negb].
    destruct (Z.eqb_spec (err_code s2) 0); [contradiction|]. reflexivity.
Qed.

Lemma read_tolerance_failures_witness :
  read_tolerance silent_board 1 (ready AD5254) =
    (0%Q, mkState AD5254 true 0x2C 2
            [Wire.begin; Wire.beginTransmission 0x2C; Wire.write 0x3A;
             Wire.endTransmission]).
Proof.
  assert (HR : 0 <= 1 <= 3) by lia.
  apply (proj1 (read_tolerance_failures silent_board (ready AD5254) 1
                  eq_refl HR)).
  vm_compute. discriminate.
Defined.

(** ** The sketches *)

Lemma write_RDAC_sends (board : Board) (s : State) (max RDAC value : Z) :
  initialized s = true ->
  variant_max (class s) = Some max ->
  0 <= RDAC <= 3 ->
  value <= max ->
  write_RDAC board RDAC value s =
    after_transaction board s [Z.lor 0x00 RDAC; value].
Proof.
  destruct s as [c init a e w]; simpl; intros -> Hmax HR Hv.
  destruct c; inversion Hmax; subst max;
    run; rewrite ?app_transaction2; reflexivity.
Qed.

Lemma flat_map_seq_S {A : Type} (f : nat -> list A) (n : nat) :
  flat_map f (seq 0 (S n)) = flat_map f (seq 0 n) ++ f n.
Proof.
  rewrite seq_S, flat_map_app. cbn. now rewrite app_nil_r.
Qed.

(** [AD5253_basic_demo]: after [setup], whatever the object held at reset,
    the [n]-th turn of [loop] writes [n mod 64] to wiper 0 of the device at
    [0x2C]. No write is refused: the value restarts at 0 after the maximum
    63, and the log of the transport is the [Wire.begin] of [initialize]
    followed by one two-byte transaction per turn. *)
Theorem basic_demo_sawtooth (board : Board) (object : State) (n : nat) :
  let g := Nat.iter n (AD5253_basic_demo.loop board)
             (AD5253_basic_demo.setup (AD5253_basic_demo.at_reset object)) in
  AD5253_basic_demo.wiper_val g = Z.of_nat n mod 64 /\
  AD5253_basic_demo.max_val g = 63 /\
  initialized (AD5253_basic_demo.ad3 g) = true /\
  wire (AD5253_basic_demo.ad3 g) =
    wire object ++ Wire.begin
      :: flat_map (fun k => sent_to_0x2C [0x00; Z.of_nat k mod 64]) (seq 0 n).
Proof.
  cbv zeta.
  assert (Hinv : exists e,
    Nat.iter n (AD5253_basic_demo.loop board)
      (AD5253_basic_demo.setup (AD5253_basic_demo.at_reset object)) =
    AD5253_basic_demo.mkSketch
      (mkState AD5253 true 0x2C e
         (wire object ++ Wire.begin
            :: flat_map (fun k => sent_to_0x2C [0x00; Z.of_nat k mod 64])
                        (seq 0 n)))
      (Z.of_nat n mod 64) 63).
  { induction n as [|n [e IH]].
    - exists (err_code object). destruct object as [c init a e w]. reflexivity.
    - rewrite Nat.iter_succ, IH. unfold AD5253_basic_demo.loop.
      cbn [AD5253_basic_demo.wiper_val AD5253_basic_demo.ad3
           AD5253_basic_demo.max_val].
      assert (Hmod : 0 <= Z.of_nat n mod 64 < 64)
        by (apply Z.mod_pos_bound; lia).
      match goal with
      | |- context [write_RDAC board ?r ?v ?s] =>
          rewrite (write_RDAC_sends board s 63 r v eq_refl eq_refl)
            by (unfold AD5253_basic_demo.RDAC; lia)
      end.
      unfold after_transaction, transaction.
      cbn [class initialized dev_addr wire map].
      eexists. f_equal.
      + f_equal. rewrite flat_map_seq_S, <- !app_assoc. cbn [app].
        unfold sent_to_0x2C. cbn [map app]. reflexivity.
      + rewrite Nat2Z.inj_succ. unfold u8.
        destruct (Z.gtb_spec ((Z.of_nat n mod 64 + 1) mod 256) 63);
          revert Hmod; generalize dependent (Z.of_nat n); intros;
          Z.to_euclidean_division_equations; lia. }
  destruct Hinv as [e ->]. cbn. auto.
Qed.

Lemma triangle_step (N : Z) :
  0 <= N ->
  let moved := i16 (triangle N + AD5254_all_demo.increment_val
                                 * triangle_direction N) in
  (if moved >=? 255 then (255, -1)
   else if moved <=? 0 then (0, 1)
   else (moved, triangle_direction N)) =
  (triangle (N + 1), triangle_direction (N + 1)).
Proof.
  intros HN. cbv zeta.
  unfold i16, triangle, triangle_direction, AD5254_all_demo.increment_val.
  rewrite Z.geb_leb.
  destruct (Z.leb_spec (N mod 510) 255);
    destruct (Z.leb_spec 255 (N mod 510));
    destruct (Z.leb_spec ((N + 1) mod 510) 255);
    destruct (Z.leb_spec 255 ((N + 1) mod 510));
  repeat match goal with
         | |- context [?x <=? ?y] => destruct (Z.leb_spec x y)
         end;
    try reflexivity; try (f_equal; Z.to_euclidean_division_equations; lia);
    exfalso; Z.to_euclidean_division_equations; lia.
Qed.

(** [AD5254_all_demo]: after [setup], whatever the object held at reset,
    the [n]-th turn of [loop] writes the same value to the four wipers of
    the device at [0x2C], and that value follows a triangle wave: up from 0
    to 255 by steps of 1, then down to 0, with period 510. It stays within
    [0, 255], so that no write is refused and the [int16_t] never wraps. *)
Theorem all_demo_triangle (board : Board) (object : State) (n : nat) :
  let g := Nat.iter n (AD5254_all_demo.loop board)
             (AD5254_all_demo.setup (AD5254_all_demo.at_reset object)) in
  AD5254_all_demo.wiper_val g = triangle (Z.of_nat n) /\
  0 <= AD5254_all_demo.wiper_val g <= 255 /\
  AD5254_all_demo.inc_direction g = triangle_direction (Z.of_nat n) /\
  wire (AD5254_all_demo.ad4 g) =
    wire object ++ Wire.begin
      :: flat_map (fun k =>
                     flat_map (fun RDAC =>
                                 sent_to_0x2C [RDAC; triangle (Z.of_nat k)])
                              [0; 1; 2; 3])
                  (seq 0 n).
Proof.
  cbv zeta.
  assert (Hrange : forall N, 0 <= N -> 0 <= triangle N <= 255).
  { intros N HN. unfold triangle.
    destruct (Z.leb_spec (N mod 510) 255);
      Z.to_euclidean_division_equations; lia. }
  assert (Hinv : exists e,
    Nat.iter n (AD5254_all_demo.loop board)
      (AD5254_all_demo.setup (AD5254_all_demo.at_reset object)) =
    AD5254_all_demo.mkSketch
      (mkState AD5254 true 0x2C e
         (wire object ++ Wire.begin
            :: flat_map (fun k =>
                           flat_map (fun RDAC =>
                                       sent_to_0x2C [RDAC; triangle (Z.of_nat k)])
                                    [0; 1; 2; 3])
                        (seq 0 n)))
      (triangle (Z.of_nat n)) (triangle_direction (Z.of_nat n)) 255).
  { induction n as [|n [e IH]].
    - exists (err_code object). destruct object as [c init a e w]. reflexivity.
    - rewrite Nat.iter_succ, IH. unfold AD5254_all_demo.loop.
      cbn [AD5254_all_demo.wiper_val AD5254_all_demo.ad4
           AD5254_all_demo.max_val AD5254_all_demo.inc_direction].
      pose proof (Hrange (Z.of_nat n) (Nat2Z.is_nonneg n)) as Hn.
      pose proof (triangle_step (Z.of_nat n) (Nat2Z.is_nonneg n)) as Hstep.
      cbv zeta in Hstep. rewrite Nat2Z.inj_succ. unfold Z.succ.
      assert (Hu8 : u8 (triangle (Z.of_nat n)) = triangle (Z.of_nat n))
        by (apply Z.mod_small; lia).
      unfold AD5254_all_demo.write_all. rewrite Hu8. cbn [fold_left].
      repeat match goal with
             | |- context [write_RDAC board ?r ?v ?s] =>
                 rewrite (write_RDAC_sends board s 255 r v eq_refl eq_refl)
                   by lia;
                 unfold after_transaction, transaction;
                 cbn [snd class initialized dev_addr wire map]
             end.
      match goal with
      | |- context [mkState AD5254 true 44 ?e' ?w] =>
          exists e'; assert (Hw : w =
            wire object ++ Wire.begin
              :: flat_map (fun k =>
                   flat_map (fun RDAC =>
                               sent_to_0x2C [RDAC; triangle (Z.of_nat k)])
                            [0; 1; 2; 3])
                   (seq 0 (S n)))
      end.
      { rewrite flat_map_seq_S, <- !app_assoc. cbn [app flat_map].
        unfold sent_to_0x2C. cbn [map app]. reflexivity. }
      rewrite Hw.
      destruct (_ >=? 255).
      + inversion Hstep as [[H1 H2]]. reflexivity.
      + destruct (_ <=? 0); inversion Hstep as [[H1 H2]]; reflexivity. }
  destruct Hinv as [e ->].
  cbn [AD5254_all_demo.wiper_val AD5254_all_demo.ad4
       AD5254_all_demo.inc_direction wire].
  pose proof (Hrange (Z.of_nat n) (Nat2Z.is_nonneg n)). auto.
Qed.

Lemma read_RDAC_zero_on_error (board : Board) (s : State) (RDAC : Z) :
  err_code (snd (read_RDAC board RDAC s)) <> EC_NO_ERR ->
  fst (read_RDAC board RDAC s) = 0.
Proof.
  unfold read_RDAC, get_err_code. unfold bind, field, assign, ret.
  destruct (initialized s); cbn [negb]; [|reflexivity].
  destruct (_ >? _); [reflexivity|]. cbv zeta.
  destruct (read_data_byte board _ s) as [rv s'].
  destruct (Z.eqb_spec (err_code s') 0); cbn [negb fst snd];
    unfold EC_NO_ERR; [intros Hne; contradiction | reflexivity].
Qed.

(** [AD5254_sawtooth_cmd] and [AD5254_exponent_cmd]: [setup] leaves 255 in
    [max_val], and a turn of [loop] in which [read_RDAC] fails takes the 0
    it returns for a wiper at the bottom: whatever the direction was, the
    sketch turns upwards and sends the increment command, by one step in
    the first sketch and by 6 dB in the second. *)
Theorem command_sketches_failed_read (board : Board) :
  (forall object,
     AD5254_sawtooth_cmd.max_val
       (AD5254_sawtooth_cmd.setup board
          (AD5254_sawtooth_cmd.at_reset object)) = 255 /\
     AD5254_exponent_cmd.max_val
       (AD5254_exponent_cmd.setup board
          (AD5254_exponent_cmd.at_reset object)) = 255) /\
  (forall g,
     AD5254_sawtooth_cmd.max_val g <> 0 ->
     let read := read_RDAC board 0 (AD5254_sawtooth_cmd.ad4 g) in
     err_code (snd read) <> EC_NO_ERR ->
     AD5254_sawtooth_cmd.loop board g =
       AD5254_sawtooth_cmd.mkSketch
         (snd (increment_RDAC board 0 (snd read)))
         (AD5254_sawtooth_cmd.max_val g) true) /\
  (forall g,
     AD5254_exponent_cmd.max_val g <> 0 ->
     let read := read_RDAC board 0 (AD5254_exponent_cmd.ad4 g) in
     err_code (snd read) <> EC_NO_ERR ->
     AD5254_exponent_cmd.loop board g =
       AD5254_exponent_cmd.mkSketch
         (snd (increment_RDAC_6dB board 0 (snd read)))
         (AD5254_exponent_cmd.max_val g) true).
Proof.
  split; [|split].
  - intros [c init a e w]. split; reflexivity.
  - intros g Hmax read Herr.
    pose proof (read_RDAC_zero_on_error board _ _ Herr) as Hzero.
    unfold AD5254_sawtooth_cmd.loop, AD5254_sawtooth_cmd.RDAC.
    subst read. destruct (read_RDAC board 0 (AD5254_sawtooth_cmd.ad4 g))
      as [wiper_val pot].
    cbn [fst snd] in *. subst wiper_val.
    destruct (Z.eqb_spec 0 (AD5254_sawtooth_cmd.max_val g)); [congruence|].
    cbn [Z.eqb].
    destruct (increment_RDAC board 0 pot). reflexivity.
  - intros g Hmax read Herr.
    pose proof (read_RDAC_zero_on_error board _ _ Herr) as Hzero.
    unfold AD5254_exponent_cmd.loop, AD5254_exponent_cmd.RDAC.
    subst read. destruct (read_RDAC board 0 (AD5254_exponent_cmd.ad4 g))
      as [wiper_val pot].
    cbn [fst snd] in *. subst wiper_val.
    destruct (Z.eqb_spec 0 (AD5254_exponent_cmd.max_val g)); [congruence|].
    cbn [Z.eqb].
    destruct (increment_RDAC_6dB board 0 pot). reflexivity.
Qed.

Lemma command_sketches_failed_read_witness :
  AD5254_sawtooth_cmd.loop silent_board
    (AD5254_sawtooth_cmd.mkSketch (ready AD5254) 255 false) =
    AD5254_sawtooth_cmd.mkSketch
      (mkState AD5254 true 0x2C 2
         [Wire.begin;
          Wire.beginTransmission 0x2C; Wire.write 0x00; Wire.endTransmission;
          Wire.beginTransmission 0x2C; Wire.write 0xD0; Wire.endTransmission])
      255 true.
Proof.
  assert (Hmax : 255 <> 0) by discriminate.
  assert (Herr : err_code (snd (read_RDAC silent_board 0 (ready AD5254)))
                 <> EC_NO_ERR) by (vm_compute; discriminate).
  exact (proj1 (proj2 (command_sketches_failed_read silent_board))
           (AD5254_sawtooth_cmd.mkSketch (ready AD5254) 255 false)
           Hmax Herr).
Defined.

(** ** The earlier driver *)

(** The earlier constructor never fails: a selector in [0, 3] gives the
    address [0x2C + selector], any larger selector is taken for 0 and gives
    [0x2C], and in both cases the object starts with no error, after one
    [Wire.begin]. *)
Theorem legacy_constructor_address (AD_addr : Z) (w : Wire.log) :
  0 <= AD_addr ->
  let o := Legacy.AD5253 AD_addr w in
  (AD_addr <= 3 -> Legacy.dev_addr o = 0x2C + AD_addr) /\
  (3 < AD_addr -> Legacy.dev_addr o = 0x2C) /\
  Legacy.err_code o = EC_NO_ERR /\
  Legacy.max_val o = 63 /\
  Legacy.wire o = w ++ [Wire.begin].
Proof.
  intros H0 o. unfold o, Legacy.AD5253, Legacy.AD525x.
  split; [|split; [|split; [|split]]]; try reflexivity.
  - intros Hsel. destruct (Z.gtb_spec AD_addr 3); [lia|].
    assert (AD_addr = 0 \/ AD_addr = 1 \/ AD_addr = 2 \/ AD_addr = 3)
      as [-> | [-> | [-> | ->]]] by lia; reflexivity.
  - intros Hsel. destruct (Z.gtb_spec AD_addr 3); [reflexivity | lia].
Qed.

Lemma legacy_constructor_address_witness :
  Legacy.dev_addr (Legacy.AD5253 2 []) = 0x2E /\
  Legacy.dev_addr (Legacy.AD5253 200 []) = 0x2C.
Proof.
  assert (H2 : 0 <= 2) by lia. assert (H200 : 0 <= 200) by lia.
  split.
  - apply (proj1 (legacy_constructor_address 2 [] H2)). lia.
  - apply (proj1 (proj2 (legacy_constructor_address 200 [] H200))). lia.
Defined.

(** In the earlier driver a read of a register beyond the bound returns the
    error code itself, [EC_BAD_REGISTER] (5), where a wiper value is
    expected, and makes no call to the transport. *)
Theorem legacy_read_returns_error_code
    (board : Board) (o : Legacy.Object) (index : Z) :
  (3 < index ->
   Legacy.read_RDAC board index o =
     (EC_BAD_REGISTER, Legacy.set_err_code EC_BAD_REGISTER o)) /\
  (15 < index ->
   Legacy.read_EEMEM board index o =
     (EC_BAD_REGISTER, Legacy.set_err_code EC_BAD_REGISTER o)).
Proof.
  split; intros Hidx; [unfold Legacy.read_RDAC | unfold Legacy.read_EEMEM];
    match goal with
    | |- context [index >? ?b] => destruct (Z.gtb_spec index b); [|lia]
    end; reflexivity.
Qed.

Lemma legacy_read_returns_error_code_witness :
  fst (Legacy.read_RDAC demo_board 4 (Legacy.AD5254 0 [])) = 5 /\
  fst (read_RDAC demo_board 4 (ready AD5254)) = 0.
Proof.
  split.
  - rewrite (proj1 (legacy_read_returns_error_code
                      demo_board (Legacy.AD5254 0 []) 4)) by lia.
    reflexivity.
  - reflexivity.
Defined.

(** In the earlier driver an object of the base class has a maximum of 0:
    straight after construction [write_RDAC] refuses every value above 0
    with [EC_BAD_WIPER_SETTING] and writes the value 0, while an AD5253
    writes every value up to 63. *)
Theorem legacy_write_RDAC_after_construction
    (board : Board) (AD_addr RDAC value : Z) (w : Wire.log) :
  0 <= RDAC <= 3 ->
  (0 < value ->
   Legacy.write_RDAC board RDAC value (Legacy.AD525x AD_addr w) =
     (EC_BAD_WIPER_SETTING,
      Legacy.set_err_code EC_BAD_WIPER_SETTING (Legacy.AD525x AD_addr w))) /\
  (value <= 63 ->
   Legacy.wire (snd (Legacy.write_RDAC board RDAC value
                       (Legacy.AD5253 AD_addr w))) =
     w ++ [Wire.begin;
           Wire.beginTransmission
             (Legacy.dev_addr (Legacy.AD5253 AD_addr w));
           Wire.write (Z.lor 0x00 RDAC); Wire.write value;
           Wire.endTransmission]).
Proof.
  intros HR. unfold Legacy.write_RDAC.
  destruct (Z.gtb_spec RDAC 3); [lia|].
  split; intros Hv.
  - cbn [Legacy.max_val Legacy.AD525x Legacy.emit].
    destruct (Z.gtb_spec value 0); [reflexivity | lia].
  - cbn [Legacy.max_val Legacy.AD5253 Legacy.set_max_val].
    unfold Legacy.AD5253_max.
    destruct (Z.gtb_spec value 63); [lia|].
    unfold Legacy.write_data, Legacy.endTransmission_into_err_code,
      Legacy.AD525x, Legacy.emit, Legacy.set_err_code, Legacy.set_max_val.
    cbn [snd Legacy.wire Legacy.dev_addr Legacy.max_val Legacy.err_code].
    rewrite <- !app_assoc.
    change (Legacy.wire (Legacy.AD5253 AD_addr w)) with (w ++ [Wire.begin]).
    rewrite <- app_assoc. reflexivity.
Qed.

Lemma legacy_write_RDAC_after_construction_witness :
  fst (Legacy.write_RDAC demo_board 0 1 (Legacy.AD525x 0 [])) = 6.
Proof.
  assert (HR : 0 <= 0 <= 3) by lia.
  rewrite (proj1 (legacy_write_RDAC_after_construction demo_board 0 0 1 [] HR))
    by lia.
  reflexivity.
Defined.

(** [get_error_string] gives the codes 0 to 7 eight different texts, none
    of them the text of the unknown error, and gives every other code the
    text of the unknown error, [EC_BAD_DEVICE_ADDR] (8) included, whose own
    text is never returned. *)
Theorem legacy_error_strings (code code' : Z) :
  (0 <= code <= 7 ->
   Legacy.get_error_string code <> Legacy.EC_UNKNOWN_ERR_str /\
   (0 <= code' <= 7 ->
    Legacy.get_error_string code = Legacy.get_error_string code' ->
    code = code')) /\
  (code < 0 \/ 7 < code ->
   Legacy.get_error_string code = Legacy.EC_UNKNOWN_ERR_str) /\
  Legacy.get_error_string code <> Legacy.EC_BAD_DEVICE_ADDR_str.
Proof.
  assert (Hcases : forall c, 0 <= c <= 7 ->
            c = 0 \/ c = 1 \/ c = 2 \/ c = 3 \/ c = 4 \/ c = 5 \/ c = 6 \/ c = 7)
    by (intros; lia).
  assert (Hunknown : forall c, c < 0 \/ 7 < c ->
            Legacy.get_error_string c = Legacy.EC_UNKNOWN_ERR_str).
  { intros c Hc. unfold Legacy.get_error_string.
    unfold EC_NO_ERR, EC_DATA_LONG, EC_NACK_ADDR, EC_NACK_DATA, EC_I2C_OTHER,
      EC_BAD_REGISTER, EC_BAD_WIPER_SETTING, EC_BAD_READ_SIZE.
    repeat match goal with
           | |- context [c =? ?k] => destruct (Z.eqb_spec c k); [lia|]
           end.
    reflexivity. }
  split; [|split].
  - intros Hc.
    destruct (Hcases code Hc) as [-> | [-> | [-> | [-> | [-> | [-> | [-> | ->]]]]]]];
      (split; [discriminate|]); intros Hc' Heq;
      destruct (Hcases code' Hc')
        as [-> | [-> | [-> | [-> | [-> | [-> | [-> | ->]]]]]]];
      first [reflexivity | discriminate Heq].
  - apply Hunknown.
  - destruct (Z.lt_ge_cases code 0) as [Hneg|Hpos];
      [rewrite Hunknown by lia; discriminate|].
    destruct (Z.lt_ge_cases 7 code) as [Hbig|Hsmall];
      [rewrite Hunknown by lia; discriminate|].
    destruct (Hcases code (conj Hpos Hsmall))
      as [-> | [-> | [-> | [-> | [-> | [-> | [-> | ->]]]]]]]; discriminate.
Qed.

Lemma legacy_error_strings_witness :
  Legacy.get_error_string 8 = Legacy.EC_UNKNOWN_ERR_str /\
  Legacy.get_error_string 6 <> Legacy.EC_UNKNOWN_ERR_str.
Proof.
  split.
  - apply (proj1 (proj2 (legacy_error_strings 8 0))). lia.
  - apply (proj1 (proj1 (legacy_error_strings 6 0) ltac:(lia))).
Defined.



(** ** The last error, again *)

(** No operation on the device reads the last error before writing it:
    what an operation returns and the handle it leaves are the same
    whatever error an earlier operation left. *)
Theorem stale_error_is_never_read
    (board : Board) (r : Request) (e : Z) (s : State) :
  perform board r (set_err_code e s) = perform board r s.
Proof. apply perform_overwrites_err_code. Qed.

(** A function that returns a status returns exactly what it leaves in
    [err_code]: it returns 0 if and only if [get_err_code] then gives 0. *)
Theorem status_is_last_error (board : Board) (r : Request) (s : State) :
  returns_status r = true ->
  fst (perform board r s) = Byte (err_code (snd (perform board r s))) /\
  (fst (perform board r s) = Byte 0 <->
   get_err_code (snd (perform board r s)) = (0, snd (perform board r s))).
Proof.
  intros Hr. pose proof (status_is_err_code board r s) as H.
  assert (Hfst : fst (perform board r s) =
                 Byte (err_code (snd (perform board r s))))
    by (destruct r; try discriminate Hr; exact H).
  split; [exact Hfst|].
  rewrite Hfst. unfold get_err_code, field. split.
  - intros Heq. inversion Heq as [H0]. now rewrite H0.
  - intros Heq. inversion Heq as [H0]. now rewrite H0.
Qed.

Lemma status_is_last_error_witness :
  fst (perform silent_board (Write_RDAC 0 1) (ready AD5254)) =
    Byte (err_code (snd (perform silent_board (Write_RDAC 0 1) (ready AD5254)))).
Proof.
  apply (proj1 (status_is_last_error silent_board (Write_RDAC 0 1)
                  (ready AD5254) eq_refl)).
Defined.

(** ** The floats of read_tolerance *)

(** For a byte [I], every value the variable [output] of [read_tolerance]
    takes, from the conversion of the integer byte to the last turn of the
    loop, is a number that a binary32 [float] holds exactly: the float
    arithmetic of the source never rounds, and the value it returns is the
    rational [tolerance_value]. *)
Theorem tolerance_floats_are_exact (n : nat) (I F : Z) :
  0 <= I < 256 ->
  binary32 (tolerance_output_after n I F) /\
  tolerance_output_after 8 I F = tolerance_value I F.
Proof.
  intros HI. split; [now apply tolerance_output_binary32 | reflexivity].
Qed.

Lemma tolerance_floats_are_exact_witness :
  binary32 (tolerance_output_after 3 0x85 0xE0).
Proof.
  assert (HI : 0 <= 0x85 < 256) by lia.
  exact (proj1 (tolerance_floats_are_exact 3 0x85 0xE0 HI)).
Defined.
